(** * my-stock-ai: the watchlist dashboard of [main.py]

    A shallow embedding of the Streamlit script: the cached watchlist
    loader [load_data_from_sheets], the per-symbol analyzer
    [get_stock_analysis] and the card-rendering loop of the page.

    - Floating-point values are IEEE 754 binary64 ([PrimFloat.float]), the
      arithmetic of Python's [float] and of NumPy's [float64].
    - Values that come from outside with no static type (the cells of the
      spreadsheet, the entries of the provider's [info] dictionary) are
      Python objects, [PyVal]; operators on them raise as Python's do.
    - The collaborators (yfinance, pandas_ta, pandas' rolling mean, the
      Google-Sheets connection) are fields of a [World], each a function
      of the arguments the script passes: every theorem holds whatever
      they answer.
    - Raising is explicit: a computation is an [Exc], the script a [Page]
      that emits widgets until it ends or faults.
    - Time is explicit: the memo of [st.cache_data] is a value passed from
      one run of the page to the next, with the clock reading of each run.

    Section 1 of the script (page configuration and style sheet) shows
    nothing the properties speak of and is left out; frames carry flat
    [float64] columns. *)

From Stdlib Require Import ZArith Floats Bool Lia.
From stdpp Require Import base option list strings gmap.

Local Open Scope string_scope.
Local Open Scope Z_scope.

(** ** Python objects and exceptions *)

Module Py.

Inductive PyExn :=
  | TypeError
  | ValueError
  | KeyError (key : string)
  | IndexError
  | OverflowError
  | ProviderError (reason : string).

(** The outcome of evaluating an expression: it raises or yields a value. *)
Inductive Exc (A : Type) :=
  | Raise (e : PyExn)
  | Ok (a : A).
Arguments Raise {A} e.
Arguments Ok {A} a.

#[export] Instance Exc_ret : MRet Exc := fun _ a => Ok a.
#[export] Instance Exc_bind : MBind Exc := fun _ _ f m =>
  match m with
  | Raise e => Raise e
  | Ok a => f a
  end.

(** The scalars a cell or an [info] entry can hold. *)
Inductive PyVal :=
  | PNone
  | PBool (b : bool)
  | PInt (n : Z)
  | PFloat (x : float)
  | PStr (s : string).

(** [dict.get(key, default)]. *)
Definition dict_get (d : gmap string PyVal) (key : string) (dflt : PyVal) : PyVal :=
  default dflt (d !! key).

(** [int.__float__]: round to nearest even, [OverflowError] past the
    binary64 range. *)
Definition float_of_int (n : Z) : Exc float :=
  let x := SF2Prim (binary_normalize prec emax n 0 false) in
  if is_infinity x then Raise OverflowError else Ok x.

(** The numeric reading of an operand that meets a float: [bool] is a
    subclass of [int]; [None] and [str] are no numbers. *)
Definition to_float (v : PyVal) : Exc float :=
  match v with
  | PFloat x => Ok x
  | PInt n => float_of_int n
  | PBool b => float_of_int (Z.b2z b)
  | PNone | PStr _ => Raise TypeError
  end.

(** [s * n] on a string: [n] copies, none when [n <= 0]. *)
Fixpoint str_repeat (s : string) (n : nat) : string :=
  match n with
  | O => ""
  | S n' => s +:+ str_repeat s n'
  end.

(** [a * b]. *)
Definition py_mul (a b : PyVal) : Exc PyVal :=
  match a, b with
  | PNone, _ | _, PNone => Raise TypeError
  | PStr _, PStr _ | PStr _, PFloat _ | PFloat _, PStr _ => Raise TypeError
  | PStr s, PInt n | PInt n, PStr s => Ok (PStr (str_repeat s (Z.to_nat n)))
  | PStr s, PBool c | PBool c, PStr s => Ok (PStr (str_repeat s (Z.to_nat (Z.b2z c))))
  | PInt m, PInt n => Ok (PInt (m * n))
  | PInt m, PBool c => Ok (PInt (m * Z.b2z c))
  | PBool c, PInt n => Ok (PInt (Z.b2z c * n))
  | PBool c, PBool d => Ok (PInt (Z.b2z c * Z.b2z d))
  | PFloat x, _ => y ← to_float b; Ok (PFloat (PrimFloat.mul x y))
  | _, PFloat y => x ← to_float a; Ok (PFloat (PrimFloat.mul x y))
  end.

(** [a > 0] for a cell of the sheet. *)
Definition py_gt_zero (a : PyVal) : Exc bool :=
  match a with
  | PBool b => Ok b
  | PInt n => Ok (0 <? n)
  | PFloat x => Ok (PrimFloat.ltb 0%float x)
  | PNone | PStr _ => Raise TypeError
  end.

(** Truth value of an object, as [if cost_price] takes it. *)
Definition truthy (v : PyVal) : bool :=
  match v with
  | PNone => false
  | PBool b => b
  | PInt n => negb (n =? 0)
  | PFloat x => negb (PrimFloat.eqb x 0%float)
  | PStr s => negb (String.eqb s "")
  end.

(** [x in s] on strings: [x] occurs in [s] as a contiguous run. *)
Fixpoint str_contains (x s : string) : bool :=
  String.prefix x s ||
  match s with
  | EmptyString => false
  | String _ s' => str_contains x s'
  end.

(** [x in v]: a test on the characters of a string, a [TypeError] on a
    scalar that is not iterable. *)
Definition py_in (x : string) (v : PyVal) : Exc bool :=
  match v with
  | PStr s => Ok (str_contains x s)
  | PNone | PBool _ | PInt _ | PFloat _ => Raise TypeError
  end.

(** [any(f(x) for x in xs)]: stops at the first true element; a raising
    element ends the scan. *)
Fixpoint py_any {A} (f : A -> Exc bool) (xs : list A) : Exc bool :=
  match xs with
  | [] => Ok false
  | x :: xs' =>
      match f x with
      | Raise e => Raise e
      | Ok true => Ok true
      | Ok false => py_any f xs'
      end
  end.

(** [pd.isna] on a scalar. *)
Definition isna (v : PyVal) : bool :=
  match v with
  | PNone => true
  | PFloat x => is_nan x
  | _ => false
  end.

(** [o is not None] for an optional field. *)
Definition is_not_None {A} (o : option A) : bool :=
  match o with
  | Some _ => true
  | None => false
  end.

(** NumPy's [float64] meeting a Python object. *)
Definition np_sub (x : float) (v : PyVal) : Exc float :=
  y ← to_float v; Ok (PrimFloat.sub x y).
Definition np_div (x : float) (v : PyVal) : Exc float :=
  y ← to_float v; Ok (PrimFloat.div x y).
Definition np_lt (x : float) (v : PyVal) : Exc bool :=
  y ← to_float v; Ok (PrimFloat.ltb x y).

End Py.
Export Py.

(** ** pandas: the price table *)

Module Pd.

(** A frame of [float64] columns over a date index (nanoseconds since the
    epoch).  A column is read position by position; a position it does not
    reach reads as NaN, pandas' filler for a missing entry. *)
Record DataFrame := mkDataFrame {
  index : list Z;
  columns : gmap string (list float)
}.

(** [len(df)]. *)
Definition len (df : DataFrame) : nat := length (index df).

(** [df.empty]: no row or no column. *)
Definition empty (df : DataFrame) : bool :=
  match index df, map_to_list (columns df) with
  | [], _ | _, [] => true
  | _ :: _, _ :: _ => false
  end.

(** A position as [iloc] resolves it: negative positions count from the
    end, anything outside the axis is an [IndexError]. *)
Definition position (n : nat) (i : Z) : Exc nat :=
  let j := if i <? 0 then Z.of_nat n + i else i in
  if (0 <=? j) && (j <? Z.of_nat n) then Ok (Z.to_nat j) else Raise IndexError.

(** [df.iloc[i]]: the row as a series keyed by column name. *)
Definition iloc (df : DataFrame) (i : Z) : Exc (gmap string float) :=
  j ← position (len df) i;
  Ok ((fun col => nth j col nan) <$> columns df).

(** [row[key]]. *)
Definition getitem (row : gmap string float) (key : string) : Exc float :=
  match row !! key with
  | Some x => Ok x
  | None => Raise (KeyError key)
  end.

(** [df[key]]: the column. *)
Definition column (df : DataFrame) (key : string) : Exc (list float) :=
  match columns df !! key with
  | Some col => Ok col
  | None => Raise (KeyError key)
  end.

(** [series.iloc[i]] on a column. *)
Definition at_position (col : list float) (i : Z) : Exc float :=
  j ← position (length col) i;
  Ok (nth j col nan).

(** [df[name] = col], and the [append=True] of pandas_ta, which assigns
    every column the indicator produced. *)
Definition assign (df : DataFrame) (name : string) (col : list float) : DataFrame :=
  {| index := index df; columns := <[name := col]> (columns df) |}.

Definition append (df : DataFrame) (cols : list (string * list float)) : DataFrame :=
  fold_left (fun d nc => assign d nc.1 nc.2) cols df.

End Pd.

(** ** The watchlist table *)

(** The spreadsheet as pandas reads it: named columns of objects.  A cell
    the sheet leaves blank is NaN. *)
Record Sheet := mkSheet {
  sheet_columns : list string;
  sheet_rows : list (gmap string PyVal)
}.

Definition sheet_empty (t : Sheet) : bool :=
  match sheet_rows t, sheet_columns t with
  | [], _ | _, [] => true
  | _ :: _, _ :: _ => false
  end.

Definition has_column (t : Sheet) (name : string) : bool :=
  bool_decide (name ∈ sheet_columns t).

(** [row[name]] for a row that [iterrows] yields. *)
Definition cell (t : Sheet) (row : gmap string PyVal) (name : string) : Exc PyVal :=
  if has_column t name then Ok (default (PFloat nan) (row !! name))
  else Raise (KeyError name).

(** ** The collaborators *)

(** The pandas_ta calls of the analyzer, with the arguments it passes. *)
Inductive Indicator :=
  | stoch (high low close : string) (k d : Z)
  | macd (close : string) (fast slow signal : Z)
  | rsi (close : string) (length : Z)
  | atr (high low close : string) (length : Z).

Record World := mkWorld {
  (** [yf.download(symbol, period, interval)] *)
  yf_download : string -> string -> string -> Exc Pd.DataFrame;
  (** [yf.Ticker(symbol).info] *)
  yf_info : string -> Exc (gmap string PyVal);
  (** [df.ta.<indicator>(...)]: the named columns the indicator computes
      from the frame, none when the series is too short for it *)
  ta : Indicator -> Pd.DataFrame -> Exc (list (string * list float));
  (** [series.rolling(window).mean()] *)
  rolling_mean : nat -> list float -> list float;
  (** [conn.read(spreadsheet=url)] over [st.connection("gsheets")] *)
  gsheets_read : string -> Exc Sheet;
  (** [str(v)] and [s.strip()] of the interpreter *)
  py_str : PyVal -> string;
  str_strip : string -> string
}.

(** ** 3. The analyzer *)

(** The dictionary [get_stock_analysis] returns, one field per key. *)
Record Analysis := mkAnalysis {
  res_df : Pd.DataFrame;
  res_info : gmap string PyVal;
  res_price : float;
  res_intrinsic : PyVal;
  res_model_type : string;
  res_k : float;
  res_rsi : float;
  res_macd_h : float;
  res_stop_loss : float;
  res_trend : string;
  res_roi : option float
}.

Definition pb_keywords : list string :=
  ["Bank"; "Insurance"; "Shipping"; "Steel"; "Basic Materials"].

(** The literal [1.3]: the binary64 value nearest to it. *)
Definition pb_multiple : float := 0x1.4cccccccccccdp+0.

Definition TREND_STRONG : string := "🔥 多頭強勢".
Definition TREND_WEAK : string := "⚠️ 趨勢轉弱".

Section Analyzer.
Context (w : World).

(** [df.ta.<indicator>(..., append=True)] *)
Definition ta_append (df : Pd.DataFrame) (ind : Indicator) : Exc Pd.DataFrame :=
  cols ← ta w ind df; Ok (Pd.append df cols).

(** The valuation model and the intrinsic value it gives, from the
    provider's [info]: lines 57 to 65. *)
Definition valuation (info : gmap string PyVal) : Exc (PyVal * string) :=
  let industry := dict_get info "industry" (PStr "") in
  is_pb_model ← py_any (fun x => py_in x industry) pb_keywords;
  if is_pb_model : bool then
    intrinsic_v ← py_mul (dict_get info "bookValue" (PInt 0))
                         (PFloat pb_multiple);
    Ok (intrinsic_v, "P/B")
  else
    intrinsic_v ← py_mul (dict_get info "trailingEps" (PInt 0))
                         (dict_get info "trailingPE" (PInt 15));
    Ok (intrinsic_v, "P/E").

(** [(close - cost_price) / cost_price * 100] *)
Definition return_on_cost (close : float) (cost_price : PyVal) : Exc float :=
  gain ← np_sub close cost_price;
  ratio ← np_div gain cost_price;
  Ok (PrimFloat.mul ratio 100).

(** The body of the [try] block: [Ok None] is the explicit
    [return None] on an empty frame. *)
Definition analysis_body (symbol : string) (cost_price : PyVal) : Exc (option Analysis) :=
  df ← yf_download w symbol "1y" "1d";
  if Pd.empty df then Ok None else
  df ← ta_append df (stoch "High" "Low" "Close" 9 3);
  df ← ta_append df (macd "Close" 12 26 9);
  df ← ta_append df (rsi "Close" 14);
  df ← ta_append df (atr "High" "Low" "Close" 14);
  curr ← Pd.iloc df (-1);
  prev ← Pd.iloc df (-2);
  info ← yf_info w symbol;
  '(intrinsic_v, model_type) ← valuation info;
  close ← Pd.getitem curr "Close";
  atr14 ← Pd.getitem curr "ATRr_14";
  let stop_loss := PrimFloat.sub close (PrimFloat.mul atr14 2) in
  closes ← Pd.column df "Close";
  ma20 ← Pd.at_position (rolling_mean w 20 closes) (-1);
  close ← Pd.getitem curr "Close";
  let trend := if PrimFloat.ltb ma20 close then TREND_STRONG else TREND_WEAK in
  price ← Pd.getitem curr "Close";
  k ← Pd.getitem curr "STOCHk_9_3_3";
  rsi14 ← Pd.getitem curr "RSI_14";
  macd_h ← Pd.getitem curr "MACDH_12_26_9";
  roi ←
    (if truthy cost_price then
       close ← Pd.getitem curr "Close";
       r ← return_on_cost close cost_price;
       Ok (Some r)
     else Ok None);
  Ok (Some {|
    res_df := df; res_info := info; res_price := price;
    res_intrinsic := intrinsic_v; res_model_type := model_type;
    res_k := k; res_rsi := rsi14; res_macd_h := macd_h;
    res_stop_loss := stop_loss; res_trend := trend; res_roi := roi |}).

(** [get_stock_analysis(symbol, cost_price=None)]: the bare [except]
    turns whatever the body raises into [None]. *)
Definition get_stock_analysis (symbol : string) (cost_price : PyVal) : option Analysis :=
  match analysis_body symbol cost_price with
  | Raise _ => None
  | Ok res => res
  end.

End Analyzer.

(** ** Streamlit: what a run of the script shows *)

Module St.

(** A piece of an f-string: literal text or a formatted value. *)
Inductive Frag :=
  | Lit (s : string)
  | Fixed (digits : nat) (x : float)
  | Count (n : nat)
  | Shown (v : PyVal)
  | Cause (e : PyExn).

(** [f"{v:.<digits>f}"] on an object: numbers print, a string has no
    [f] format, [None] takes no format at all. *)
Definition format_fixed (digits : nat) (v : PyVal) : Exc Frag :=
  match v with
  | PFloat x => Ok (Fixed digits x)
  | PInt n => x ← float_of_int n; Ok (Fixed digits x)
  | PBool b => x ← float_of_int (Z.b2z b); Ok (Fixed digits x)
  | PStr _ => Raise ValueError
  | PNone => Raise TypeError
  end.

(** The candlestick trace and the line drawn over it. *)
Record Figure := mkFigure {
  fig_x : list Z;
  fig_open : list float;
  fig_high : list float;
  fig_low : list float;
  fig_close : list float;
  fig_line : list float
}.

(** Where an element lands. *)
Inductive Slot :=
  | body | sidebar | c_title | c_tag | m1 | m2 | m3 | m4
  | expander (label : string).

Inductive Widget :=
  | st_title (text : string)
  | st_subheader (slot : Slot) (text : string)
  | st_write (slot : Slot) (text : list Frag)
  | st_markdown (slot : Slot) (text : list Frag)
  | st_metric (slot : Slot) (label value : list Frag) (delta : option (list Frag))
  | st_error (text : list Frag)
  | st_warning (text : string)
  | st_info (slot : Slot) (text : list Frag)
  | st_plotly_chart (slot : Slot) (fig : Figure).

(** A stretch of the script: the elements it put on the page, and how it
    ended.  An exception nothing catches stops the run where it is. *)
Record Page (A : Type) := Render {
  shown : list Widget;
  outcome : Exc A
}.
Arguments Render {A} shown outcome.
Arguments shown {A} p.
Arguments outcome {A} p.

#[export] Instance Page_ret : MRet Page := fun _ a => Render [] (Ok a).
#[export] Instance Page_bind : MBind Page := fun _ _ f m =>
  match outcome m with
  | Raise e => Render (shown m) (Raise e)
  | Ok a => Render (shown m ++ shown (f a)) (outcome (f a))
  end.

Definition emit (x : Widget) : Page unit := Render [x] (Ok tt).
Definition eval {A} (m : Exc A) : Page A := Render [] m.

(** A [for] loop over the rows. *)
Fixpoint for_each {A} (f : A -> Page unit) (xs : list A) : Page unit :=
  match xs with
  | [] => mret tt
  | x :: xs' => f x ;; for_each f xs'
  end.

(** [@st.cache_data(ttl=...)] on a function of no argument: the value it
    returned and the elements it showed are kept with the time of the call,
    and replayed to every call made before [ttl] seconds have passed. *)
Record Entry (A : Type) := mkEntry {
  stored_at : Z;
  stored : A;
  replay : list Widget
}.
Arguments mkEntry {A} stored_at stored replay.
Arguments stored_at {A} e.
Arguments stored {A} e.
Arguments replay {A} e.

Definition fresh {A} (ttl now : Z) (c : option (Entry A)) : option (Entry A) :=
  match c with
  | Some e => if now <? stored_at e + ttl then Some e else None
  | None => None
  end.

Definition cache_data {A} (ttl : Z) (f : Page A) (now : Z) (c : option (Entry A))
  : Page A * option (Entry A) :=
  match fresh ttl now c with
  | Some e => (Render (replay e) (Ok (stored e)), Some e)
  | None =>
      match outcome f with
      | Ok v => (f, Some (mkEntry now v (shown f)))
      | Raise _ => (f, None)
      end
  end.

End St.
Export St.

(** ** 2. The cloud watchlist *)

Definition SHEET_URL : string :=
  "https://docs.google.com/spreadsheets/d/1WVDOUvbfBK59WPeXoV41FmvvwOsCmzMJ87HpqWtg6vk/edit?gid=0#gid=0".

Section Dashboard.
Context (w : World).

(** The function under the decorator. *)
Definition load_data_from_sheets_body : Page Sheet :=
  match gsheets_read w SHEET_URL with
  | Ok data => mret data
  | Raise e =>
      emit (st_error [Lit "雲端資料讀取失敗，請檢查網址與權限。錯誤: "; Cause e]) ;;
      mret (mkSheet ["Ticker"; "Cost"; "Note"] [])
  end.

(** [@st.cache_data(ttl=600)] *)
Definition load_data_from_sheets (now : Z) (c : option (Entry Sheet))
  : Page Sheet * option (Entry Sheet) :=
  cache_data 600 load_data_from_sheets_body now c.

(** ** 4. The page *)

(** The two tiles that depend on the cost basis. *)
Definition cost_tiles (res : Analysis) : list Widget :=
  match res_roi res with
  | Some roi =>
      [ st_metric m3 [Lit "我的報酬率"] [Fixed 2 roi; Lit "%"] (Some [Fixed 2 roi; Lit "%"]);
        st_metric m4 [Lit "建議止損位"] [Fixed 2 (res_stop_loss res)] None ]
  | None =>
      [ st_metric m3 [Lit "KD (K值)"] [Fixed 1 (res_k res)] None;
        st_metric m4 [Lit "RSI (14)"] [Fixed 1 (res_rsi res)] None ]
  end.

(** The stop-loss banner. *)
Definition stop_banner (res : Analysis) : Widget :=
  st_error [Lit "🚨 停損警告：股價已低於 ATR 動態止損位 ";
            Fixed 2 (res_stop_loss res); Lit "，請嚴守紀律！"].

Definition EXPANDER : string := "📊 查看技術圖表與 AI 綜合評論".

(** The comment under the chart. *)
Definition ai_comment (buy_signal tech_signal advice : string) : Widget :=
  st_info (expander EXPANDER)
    [Lit "🤖 **AI 診斷報告**：目前價值面 **"; Lit buy_signal;
     Lit "**，技術面指標顯示 **"; Lit tech_signal;
     Lit "**。建議："; Lit advice; Lit "。"].

(** The body of [if res:] for one row. *)
Definition render_card (symbol : string) (res : Analysis) : Page unit :=
  let status_color :=
    if str_contains "強勢" (res_trend res) then "green" else "orange" in
  emit (st_markdown c_title
          [Lit "### "; Lit symbol; Lit " - ";
           Shown (dict_get (res_info res) "shortName" (PStr ""))]) ;;
  emit (st_markdown c_tag
          [Lit ":"; Lit status_color; Lit "[**"; Lit (res_trend res); Lit "**]"]) ;;
  emit (st_metric m1 [Lit "當前股價"] [Fixed 2 (res_price res)] None) ;;
  value ← eval (format_fixed 2 (res_intrinsic res));
  emit (st_metric m2 [Lit "AI 內在價值 ("; Lit (res_model_type res); Lit ")"]
          [value] None) ;;
  for_each emit (cost_tiles res) ;;
  (if is_not_None (res_roi res) && PrimFloat.ltb (res_price res) (res_stop_loss res)
   then emit (stop_banner res) else mret tt) ;;
  open ← eval (Pd.column (res_df res) "Open");
  high ← eval (Pd.column (res_df res) "High");
  low ← eval (Pd.column (res_df res) "Low");
  close ← eval (Pd.column (res_df res) "Close");
  closes ← eval (Pd.column (res_df res) "Close");
  let ma20_line := rolling_mean w 20 closes in
  emit (st_plotly_chart (expander EXPANDER)
          (mkFigure (Pd.index (res_df res)) open high low close ma20_line)) ;;
  cheap ← eval (np_lt (res_price res) (res_intrinsic res));
  let buy_signal := if cheap : bool then "具備安全邊際" else "股價偏高" in
  let rising := PrimFloat.ltb 0 (res_macd_h res) in
  let tech_signal := if rising then "動能轉強" else "動能疲弱" in
  both ← (if rising then eval (np_lt (res_price res) (res_intrinsic res))
          else mret false);
  emit (ai_comment buy_signal tech_signal
          (if both : bool then "偏多操作" else "暫時觀望")) ;;
  emit (st_markdown body [Lit "---"]).

(** The cost basis the loop hands to the analyzer: the cell when the
    sheet has a [Cost] column and the cell is filled, else 0; then [None]
    unless it is above 0. *)
Definition row_cost (t : Sheet) (row : gmap string PyVal) : Exc PyVal :=
  filled ← (if has_column t "Cost"
            then c ← cell t row "Cost"; Ok (negb (isna c))
            else Ok false);
  if filled : bool then cell t row "Cost" else Ok (PInt 0).

Definition cost_price_of (cost : PyVal) : Exc PyVal :=
  positive ← py_gt_zero cost;
  Ok (if positive : bool then cost else PNone).

(** Lines 105 to 108: the symbol of a row and what the analyzer returns
    for it. *)
Definition analyze_row (t : Sheet) (row : gmap string PyVal)
  : Exc (string * option Analysis) :=
  ticker ← cell t row "Ticker";
  let symbol := str_strip w (py_str w ticker) in
  cost ← row_cost t row;
  cost_price ← cost_price_of cost;
  Ok (symbol, get_stock_analysis w symbol cost_price).

(** One turn of [for index, row in df_cloud.iterrows()]. *)
Definition watch_row (t : Sheet) (row : gmap string PyVal) : Page unit :=
  '(symbol, res) ← eval (analyze_row t row);
  match res with
  | Some res => render_card symbol res
  | None => mret tt
  end.

(** The script from [st.title] on. *)
Definition page (now : Z) (c : option (Entry Sheet)) : Page unit * option (Entry Sheet) :=
  let loaded := load_data_from_sheets now c in
  (emit (st_title "📈 台股 AI 雲端全方位決策系統") ;;
   df_cloud ← loaded.1;
   if sheet_empty df_cloud then
     emit (st_warning "目前雲端清單為空，請在 Google Sheets 加入股票代號（例如 2330.TW）。")
   else
     emit (st_subheader sidebar "☁️ 雲端同步狀態") ;;
     emit (st_write sidebar
             [Lit "已載入 "; Count (length (sheet_rows df_cloud)); Lit " 檔追蹤個股"]) ;;
     for_each (watch_row df_cloud) (sheet_rows df_cloud),
   loaded.2).

End Dashboard.


(** ** Notions the statements use *)

(** The value of a column on the latest bar of a frame. *)
Definition latest (df : Pd.DataFrame) (key : string) : Exc float :=
  curr ← Pd.iloc df (-1); Pd.getitem curr key.

(** [kw] occurs in [s]: some text, then [kw], then some text. *)
Definition occurs_in (kw s : string) : Prop :=
  exists before after, s = before +:+ kw +:+ after.

(** The industry names one of the balance-sheet sectors. *)
Definition names_pb_sector (industry : string) : Prop :=
  exists kw, kw ∈ pb_keywords /\ occurs_in kw industry.

(** What a run that returns a dictionary went through, and what the
    dictionary holds: the characterisation of a successful analysis. *)
Definition analyzed (w : World) (symbol : string) (cost_price : PyVal)
    (res : Analysis) : Prop :=
  exists df0 c1 c2 c3 c4 curr prev atr14 closes ma20,
    yf_download w symbol "1y" "1d" = Ok df0 /\
    Pd.empty df0 = false /\
    ta w (stoch "High" "Low" "Close" 9 3) df0 = Ok c1 /\
    ta w (macd "Close" 12 26 9) (Pd.append df0 c1) = Ok c2 /\
    ta w (rsi "Close" 14) (Pd.append (Pd.append df0 c1) c2) = Ok c3 /\
    ta w (atr "High" "Low" "Close" 14)
       (Pd.append (Pd.append (Pd.append df0 c1) c2) c3) = Ok c4 /\
    res_df res = Pd.append (Pd.append (Pd.append (Pd.append df0 c1) c2) c3) c4 /\
    Pd.iloc (res_df res) (-1) = Ok curr /\
    Pd.iloc (res_df res) (-2) = Ok prev /\
    yf_info w symbol = Ok (res_info res) /\
    valuation (res_info res) = Ok (res_intrinsic res, res_model_type res) /\
    Pd.getitem curr "Close" = Ok (res_price res) /\
    Pd.getitem curr "ATRr_14" = Ok atr14 /\
    res_stop_loss res = PrimFloat.sub (res_price res) (PrimFloat.mul atr14 2) /\
    Pd.column (res_df res) "Close" = Ok closes /\
    Pd.at_position (rolling_mean w 20 closes) (-1) = Ok ma20 /\
    res_trend res =
      (if PrimFloat.ltb ma20 (res_price res) then TREND_STRONG else TREND_WEAK) /\
    Pd.getitem curr "STOCHk_9_3_3" = Ok (res_k res) /\
    Pd.getitem curr "RSI_14" = Ok (res_rsi res) /\
    Pd.getitem curr "MACDH_12_26_9" = Ok (res_macd_h res) /\
    (if truthy cost_price
     then exists r, return_on_cost (res_price res) cost_price = Ok r /\ res_roi res = Some r
     else res_roi res = None).


(** The cost basis a row of the sheet states, if it states one: the
    filled cell of its [Cost] column. *)
Definition cost_basis (t : Sheet) (row : gmap string PyVal) : option PyVal :=
  if has_column t "Cost" then
    let c := default (PFloat nan) (row !! "Cost") in
    if isna c then None else Some c
  else None.

(** The row states a cost basis above zero. *)
Definition positive_cost_basis (t : Sheet) (row : gmap string PyVal) : Prop :=
  exists c, cost_basis t row = Some c /\ py_gt_zero c = Ok true.

(** The metric tiles among the elements of a card, in order. *)
Definition is_metric (x : Widget) : bool :=
  match x with
  | st_metric _ _ _ _ => true
  | _ => false
  end.

Definition headline (p : Page unit) : list Widget :=
  List.filter is_metric (shown p).

(** The stop-loss banner is among the elements shown. *)
Definition warns (p : Page unit) : Prop :=
  exists text, st_error text ∈ shown p.

(** The value tile prints the intrinsic value, and the value is zero. *)
Definition renders_as_zero (v : PyVal) : Prop :=
  exists z, format_fixed 2 v = Ok (Fixed 2 z) /\ PrimFloat.eqb z 0 = true.

(** An entry of [info] that is a finite number, or is not there. *)
Definition finite_number (v : PyVal) : Prop :=
  match v with
  | PInt _ | PBool _ => True
  | PFloat x => is_finite x = true
  | PNone | PStr _ => False
  end.

Definition absent_or_finite (o : option PyVal) : Prop :=
  match o with
  | None => True
  | Some v => finite_number v
  end.

(** The same collaborators, with another [info] from the provider. *)
Definition with_info (w : World) (info : gmap string PyVal) : World :=
  {| yf_download := yf_download w;
     yf_info := fun _ => Ok info;
     ta := ta w;
     rolling_mean := rolling_mean w;
     gsheets_read := gsheets_read w;
     py_str := py_str w;
     str_strip := str_strip w |}.

(** A dictionary with another [info] and the valuation that goes with it. *)
Definition revalued (res : Analysis) (info : gmap string PyVal)
    (intrinsic_v : PyVal) (model_type : string) : Analysis :=
  {| res_df := res_df res; res_info := info; res_price := res_price res;
     res_intrinsic := intrinsic_v; res_model_type := model_type;
     res_k := res_k res; res_rsi := res_rsi res; res_macd_h := res_macd_h res;
     res_stop_loss := res_stop_loss res; res_trend := res_trend res;
     res_roi := res_roi res |}.

(** ** A provider to run the script against *)

Module Fixture.

(** Two daily bars closing at [close]. *)
Definition bars (close : float) : Pd.DataFrame :=
  {| Pd.index := [1762128000000000000; 1762214400000000000];
     Pd.columns :=
       {[ "Open" := [540; 545]%float; "High" := [548; 556]%float;
          "Low" := [538; 520]%float; "Close" := [541; close]%float;
          "Volume" := [31000; 28000]%float ]} |}.

(** One bar only, and a frame with columns and no row. *)
Definition one_bar : Pd.DataFrame :=
  {| Pd.index := [1762214400000000000];
     Pd.columns :=
       {[ "Open" := [545]%float; "High" := [556]%float; "Low" := [520]%float;
          "Close" := [550]%float; "Volume" := [28000]%float ]} |}.

Definition no_bar : Pd.DataFrame :=
  {| Pd.index := [];
     Pd.columns := {[ "Open" := []; "High" := []; "Low" := []; "Close" := [] ]} |}.

(** Indicator columns under the names the analyzer reads. *)
Definition indicators (atr14 macd_h : float) (ind : Indicator)
  : list (string * list float) :=
  match ind with
  | stoch _ _ _ _ _ =>
      [("STOCHk_9_3_3", [nan; 80]%float); ("STOCHd_9_3_3", [nan; 75]%float)]
  | macd _ _ _ _ =>
      [("MACD_12_26_9", [nan; 2]%float); ("MACDH_12_26_9", [nan; macd_h]);
       ("MACDs_12_26_9", [nan; 1.5]%float)]
  | rsi _ _ => [("RSI_14", [nan; 60]%float)]
  | atr _ _ _ _ => [("ATRr_14", [nan; atr14])]
  end.

(** A provider that answers every symbol with the same two bars and the
    same [info], except [EMPTY] (no bar), [ONEBAR] (one bar) and [DOWN]
    (the fetch fails). *)
Definition world (close atr14 ma20 macd_h : float) (info : gmap string PyVal)
    (sheet : Exc Sheet) : World :=
  {| yf_download := fun symbol _ _ =>
       if String.eqb symbol "EMPTY" then Ok no_bar
       else if String.eqb symbol "ONEBAR" then Ok one_bar
       else if String.eqb symbol "DOWN" then Raise (ProviderError "timed out")
       else Ok (bars close);
     yf_info := fun _ => Ok info;
     ta := fun ind _ => Ok (indicators atr14 macd_h ind);
     rolling_mean := fun _ xs => [nan; ma20];
     gsheets_read := fun _ => sheet;
     py_str := fun v => match v with PStr s => s | _ => "?" end;
     str_strip := fun s => s |}.

Definition tsmc : gmap string PyVal :=
  {[ "shortName" := PStr "TSMC"; "industry" := PStr "Semiconductors";
     "trailingEps" := PFloat 40; "trailingPE" := PFloat 20;
     "bookValue" := PFloat 150 ]}.

Definition regional_bank : gmap string PyVal :=
  {[ "shortName" := PStr "XYZ Financial"; "industry" := PStr "Regional Banks";
     "trailingEps" := PFloat 3; "bookValue" := PFloat 20 ]}.

(** No [trailingEps], and a [trailingPE] that is not finite. *)
Definition no_eps_inf_pe : gmap string PyVal :=
  {[ "shortName" := PStr "Lossmaker"; "industry" := PStr "Biotechnology";
     "trailingPE" := PFloat infinity; "bookValue" := PFloat 2 ]}.

(** No [trailingEps] and no [trailingPE]. *)
Definition no_eps : gmap string PyVal :=
  {[ "shortName" := PStr "Lossmaker"; "industry" := PStr "Biotechnology";
     "bookValue" := PFloat 2 ]}.

Definition row_2330 : gmap string PyVal :=
  {[ "Ticker" := PStr "2330.TW"; "Cost" := PInt 500; "Note" := PStr "core" ]}.
Definition row_empty : gmap string PyVal :=
  {[ "Ticker" := PStr "EMPTY"; "Cost" := PFloat nan; "Note" := PFloat nan ]}.
Definition row_2317 : gmap string PyVal :=
  {[ "Ticker" := PStr "2317.TW"; "Cost" := PFloat nan; "Note" := PFloat nan ]}.

Definition watchlist : Sheet :=
  {| sheet_columns := ["Ticker"; "Cost"; "Note"];
     sheet_rows := [row_2330; row_empty; row_2317] |}.

(** Scenario 1 of the specification: close 550, ATR 10, 20-day mean 540. *)
Definition scenario1 : World :=
  world 550 10 540 0.5 tsmc (Ok watchlist).

(** Scenario 2: close 525 under a stop at 530. *)
Definition scenario2 : World :=
  world 525 (-2.5) 540 (-0.5) tsmc (Ok watchlist).

(** Scenario 3: a regional bank. *)
Definition scenario3 : World :=
  world 550 10 540 0.5 regional_bank (Ok watchlist).

(** A company with no earnings on record. *)
Definition lossmaker : World :=
  world 550 10 540 0.5 no_eps_inf_pe (Ok watchlist).

(** The same [info] with the multiple as the text [Infinity]. *)
Definition no_eps_text_pe : gmap string PyVal :=
  <["trailingPE" := PStr "Infinity"]> no_eps_inf_pe.

(** The provider of scenario 1 with the histogram column spelled
    [MACDh_12_26_9]. *)
Definition lower_case_histogram : World :=
  {| yf_download := yf_download scenario1;
     yf_info := yf_info scenario1;
     ta := fun ind _ =>
       match ind with
       | macd _ _ _ _ =>
           Ok [("MACD_12_26_9", [nan; 2]%float); ("MACDh_12_26_9", [nan; 0.5]%float);
               ("MACDs_12_26_9", [nan; 1.5]%float)]
       | _ => Ok (indicators 10 0.5 ind)
       end;
     rolling_mean := rolling_mean scenario1;
     gsheets_read := gsheets_read scenario1;
     py_str := py_str scenario1;
     str_strip := str_strip scenario1 |}.

End Fixture.

(** ** Further notions *)

(** The columns the analyzer reads on the latest bar. *)
Definition snapshot_columns : list string :=
  ["Close"; "ATRr_14"; "STOCHk_9_3_3"; "RSI_14"; "MACDH_12_26_9"].

(** The names of the columns an indicator call returned. *)
Definition names (cols : list (string * list float)) : list string := cols.*1.

(** An object that reads as a binary64 number. *)
Definition numeric (v : PyVal) : Prop := exists x, to_float v = Ok x.

(** The row gets a card: the analyzer returned a dictionary for it. *)
Definition has_card (w : World) (t : Sheet) (row : gmap string PyVal) : bool :=
  match analyze_row w t row with
  | Ok (_, Some _) => true
  | _ => false
  end.

(** The frame has the columns the chart draws. *)
Definition chartable (df : Pd.DataFrame) : Prop :=
  forall key, key ∈ ["Open"; "High"; "Low"; "Close"] ->
    is_Some (Pd.columns df !! key).

(** ** More providers *)

Module Cases.

(** The provider reports the multiple as the text [Infinity] and no
    earnings. *)
Definition text_multiple : World :=
  Fixture.world 550 10 540 0.5 Fixture.no_eps_text_pe (Ok Fixture.watchlist).

(** A row whose cost was typed as text. *)
Definition row_text_cost : gmap string PyVal :=
  {[ "Ticker" := PStr "2330.TW"; "Cost" := PStr "500"; "Note" := PFloat nan ]}.

(** The sheet cannot be read. *)
Definition sheet_down : World :=
  Fixture.world 550 10 540 0.5 Fixture.tsmc (Raise (ProviderError "quota exceeded")).

(** No industry on record. *)
Definition no_industry : gmap string PyVal :=
  {[ "shortName" := PStr "Index fund"; "trailingEps" := PFloat 2;
     "trailingPE" := PFloat 12 ]}.

Definition index_fund : World :=
  Fixture.world 550 10 540 0.5 no_industry (Ok Fixture.watchlist).

(** The industry entry is there and holds [None]. *)
Definition null_industry : World :=
  Fixture.world 550 10 540 0.5
    {[ "industry" := PNone; "trailingEps" := PFloat 2 ]} (Ok Fixture.watchlist).

(** A rolling mean that is NaN on the latest bar, as over fewer than 20
    bars. *)
Definition short_history : World :=
  Fixture.world 550 10 nan 0.5 Fixture.tsmc (Ok Fixture.watchlist).

End Cases.

(** A dictionary with another return on cost. *)
Definition with_roi (res : Analysis) (roi : option float) : Analysis :=
  {| res_df := res_df res; res_info := res_info res; res_price := res_price res;
     res_intrinsic := res_intrinsic res; res_model_type := res_model_type res;
     res_k := res_k res; res_rsi := res_rsi res; res_macd_h := res_macd_h res;
     res_stop_loss := res_stop_loss res; res_trend := res_trend res;
     res_roi := roi |}.

(** * Properties *)

(** ** Reasoning about [Exc] and [Page] *)

Lemma exc_bind_Ok {A B} (m : Exc A) (f : A -> Exc B) (b : B) :
  m ≫= f = Ok b -> exists a, m = Ok a /\ f a = Ok b.
Proof.
  destruct m as [e|a]; cbn [mbind Exc_bind]; [discriminate|].
  intros H. exists a. split; [reflexivity|exact H].
Qed.

Lemma get_stock_analysis_Some w symbol cost_price res :
  get_stock_analysis w symbol cost_price = Some res <->
  analysis_body w symbol cost_price = Ok (Some res).
Proof.
  unfold get_stock_analysis.
  destruct (analysis_body w symbol cost_price) as [e|[r|]];
    split; intros H; try discriminate; congruence.
Qed.

Lemma analysis_inv w symbol cost_price res :
  get_stock_analysis w symbol cost_price = Some res ->
  analyzed w symbol cost_price res.
Proof.
  rewrite get_stock_analysis_Some. unfold analysis_body, ta_append. intros H.
  apply exc_bind_Ok in H as (df0 & Hdl & H).
  destruct (Pd.empty df0) eqn:Hne; [discriminate|].
  apply exc_bind_Ok in H as (d1 & H1 & H).
  apply exc_bind_Ok in H1 as (c1 & Hc1 & [= <-]).
  apply exc_bind_Ok in H as (d2 & H2 & H).
  apply exc_bind_Ok in H2 as (c2 & Hc2 & [= <-]).
  apply exc_bind_Ok in H as (d3 & H3 & H).
  apply exc_bind_Ok in H3 as (c3 & Hc3 & [= <-]).
  apply exc_bind_Ok in H as (d4 & H4 & H).
  apply exc_bind_Ok in H4 as (c4 & Hc4 & [= <-]).
  apply exc_bind_Ok in H as (curr & Hcurr & H).
  apply exc_bind_Ok in H as (prev & Hprev & H).
  apply exc_bind_Ok in H as (info & Hinfo & H).
  apply exc_bind_Ok in H as ([v mt] & Hval & H).
  apply exc_bind_Ok in H as (close & Hclose & H).
  apply exc_bind_Ok in H as (atr14 & Hatr & H).
  apply exc_bind_Ok in H as (closes & Hcloses & H).
  apply exc_bind_Ok in H as (ma20 & Hma & H).
  apply exc_bind_Ok in H as (close' & Hclose' & H).
  apply exc_bind_Ok in H as (price & Hprice & H).
  apply exc_bind_Ok in H as (k & Hk & H).
  apply exc_bind_Ok in H as (rsi14 & Hrsi & H).
  apply exc_bind_Ok in H as (mh & Hmh & H).
  apply exc_bind_Ok in H as (roi & Hroi & H).
  injection H as <-. unfold analyzed.
  cbn [res_df res_info res_price res_intrinsic res_model_type
    res_k res_rsi res_macd_h res_stop_loss res_trend res_roi].
  assert (close' = close) as -> by congruence.
  assert (price = close) as -> by congruence.
  exists df0, c1, c2, c3, c4, curr, prev, atr14, closes, ma20.
  repeat (split; [first [assumption | reflexivity]|]).
  destruct (truthy cost_price).
  - apply exc_bind_Ok in Hroi as (c & Hc & Hroi).
    apply exc_bind_Ok in Hroi as (r & Hr & [= <-]).
    assert (c = close) as -> by congruence.
    exists r. split; [assumption|reflexivity].
  - injection Hroi as <-. reflexivity.
Qed.

Lemma analysis_intro w symbol cost_price res :
  analyzed w symbol cost_price res ->
  get_stock_analysis w symbol cost_price = Some res.
Proof.
  intros (df0 & c1 & c2 & c3 & c4 & curr & prev & atr14 & closes & ma20 &
          Hdl & Hne & Hc1 & Hc2 & Hc3 & Hc4 & Hdf & Hcurr & Hprev & Hinfo & Hval &
          Hclose & Hatr & Hstop & Hcloses & Hma & Htrend & Hk & Hrsi & Hmh & Hroi).
  apply get_stock_analysis_Some. unfold analysis_body, ta_append.
  rewrite Hdl. cbn [mbind Exc_bind]. rewrite Hne.
  rewrite Hc1. cbn [mbind Exc_bind]. rewrite Hc2. cbn [mbind Exc_bind].
  rewrite Hc3. cbn [mbind Exc_bind]. rewrite Hc4. cbn [mbind Exc_bind].
  rewrite <- Hdf, Hcurr. cbn [mbind Exc_bind].
  rewrite Hprev. cbn [mbind Exc_bind]. rewrite Hinfo. cbn [mbind Exc_bind].
  rewrite Hval. cbn [mbind Exc_bind]. rewrite Hclose. cbn [mbind Exc_bind].
  rewrite Hatr. cbn [mbind Exc_bind]. rewrite Hcloses. cbn [mbind Exc_bind].
  rewrite Hma. cbn [mbind Exc_bind]. rewrite Hk. cbn [mbind Exc_bind].
  rewrite Hrsi. cbn [mbind Exc_bind]. rewrite Hmh. cbn [mbind Exc_bind].
  destruct res; cbn in *. subst.
  destruct (truthy cost_price).
  - destruct Hroi as (r & Hr & ->). rewrite Hr. reflexivity.
  - subst. reflexivity.
Qed.

(** Facts about the dictionary of a concrete run are read off the run
    itself: with [H : run = Some res], a goal about [res] is checked by
    evaluating it on what [run] computes to. *)
Ltac from_run H :=
  match type of H with
  | ?run = Some ?res =>
      pattern res;
      match goal with
      | |- ?P res =>
          let E := fresh "E" in
          assert (E : match run with Some r => P r | None => True end)
            by (vm_compute; reflexivity);
          rewrite H in E; exact E
      end
  | ?run = Ok (?symbol, Some ?res) =>
      pattern res;
      match goal with
      | |- ?P res =>
          let E := fresh "E" in
          assert (E : match run with Ok (_, Some r) => P r | _ => True end)
            by (vm_compute; reflexivity);
          rewrite H in E; exact E
      end
  end.

(** ** Strings *)

Lemma append_cons a (x rest : string) :
  String a x +:+ rest = String a (x +:+ rest).
Proof. reflexivity. Qed.

Lemma prefix_occurs x s :
  String.prefix x s = true <-> exists rest, s = x +:+ rest.
Proof.
  revert s. induction x as [|a x IH]; intros s.
  - split; [intros _; exists s; reflexivity|intros _; destruct s; reflexivity].
  - destruct s as [|b s]; cbn [String.prefix].
    + split; [discriminate|intros [rest H]; discriminate].
    + destruct (Ascii.ascii_dec a b) as [->|Hne].
      * rewrite IH. split; intros [rest H]; exists rest;
          rewrite append_cons in *; congruence.
      * split; [discriminate|].
        intros [rest H]. rewrite append_cons in H. congruence.
Qed.

Lemma str_contains_occurs x s :
  str_contains x s = true <-> occurs_in x s.
Proof.
  unfold occurs_in. induction s as [|b s IH]; cbn [str_contains].
  - rewrite orb_false_r, prefix_occurs. split.
    + intros [rest H]. exists "", rest. exact H.
    + intros (before & rest & H). destruct before; [exists rest; exact H|discriminate].
  - rewrite orb_true_iff, IH, prefix_occurs. split.
    + intros [[rest H]|(before & rest & H)].
      * exists "", rest. exact H.
      * exists (String b before), rest. rewrite append_cons. congruence.
    + intros (before & rest & H). destruct before as [|c before].
      * left. exists rest. exact H.
      * right. exists before, rest. rewrite append_cons in H. congruence.
Qed.

Lemma py_any_in_str (s : string) (kws : list string) :
  py_any (fun x => py_in x (PStr s)) kws =
  Ok (existsb (fun x => str_contains x s) kws).
Proof.
  induction kws as [|kw kws IH]; cbn [py_any existsb py_in]; [reflexivity|].
  destruct (str_contains kw s); [reflexivity|exact IH].
Qed.

Lemma py_any_in_not_str (v : PyVal) (kw : string) (kws : list string) b :
  py_any (fun x => py_in x v) (kw :: kws) = Ok b -> exists s, v = PStr s.
Proof.
  destruct v; cbn [py_any py_in]; try discriminate. intros _. eauto.
Qed.

Lemma names_pb_sector_spec industry :
  existsb (fun x => str_contains x industry) pb_keywords = true <->
  names_pb_sector industry.
Proof.
  unfold names_pb_sector. rewrite existsb_exists. split.
  - intros (kw & Hin & H). exists kw. split.
    + apply list_elem_of_In. exact Hin.
    + apply str_contains_occurs. exact H.
  - intros (kw & Hin & H). exists kw. split.
    + apply list_elem_of_In. exact Hin.
    + apply str_contains_occurs. exact H.
Qed.

(** The model the analyzer selects, read off the industry string. *)
Lemma valuation_inv info v mt :
  valuation info = Ok (v, mt) ->
  exists industry,
    dict_get info "industry" (PStr "") = PStr industry /\
    ((names_pb_sector industry /\ mt = "P/B" /\
      py_mul (dict_get info "bookValue" (PInt 0)) (PFloat pb_multiple) = Ok v) \/
     (~ names_pb_sector industry /\ mt = "P/E" /\
      py_mul (dict_get info "trailingEps" (PInt 0))
             (dict_get info "trailingPE" (PInt 15)) = Ok v)).
Proof.
  unfold valuation. intros H.
  apply exc_bind_Ok in H as (pb & Hpb & H).
  destruct (py_any_in_not_str _ _ _ _ Hpb) as [industry Hind].
  exists industry. split; [exact Hind|].
  rewrite Hind, py_any_in_str in Hpb.
  assert (Hb : existsb (fun x => str_contains x industry) pb_keywords = pb)
    by congruence.
  clear Hpb. destruct pb.
  - left. apply exc_bind_Ok in H as (v' & Hv & [= <- <-]).
    split; [apply names_pb_sector_spec; exact Hb|auto].
  - right. apply exc_bind_Ok in H as (v' & Hv & [= <- <-]).
    split; [|auto]. intros Hn. apply names_pb_sector_spec in Hn. congruence.
Qed.

(** ** binary64 facts *)

Lemma float_mul_comm (x y : float) : PrimFloat.mul x y = PrimFloat.mul y x.
Proof.
  apply Prim2SF_inj. rewrite !mul_spec. unfold SF64mul, SFmul.
  destruct (Prim2SF x) as [sx|sx| |sx mx ex], (Prim2SF y) as [sy|sy| |sy my ey];
    try reflexivity; rewrite ?(xorb_comm sx sy); try reflexivity.
  rewrite (Pos.mul_comm mx my), (Z.add_comm ex ey). reflexivity.
Qed.

Lemma SFcompare_Eq_sym x y :
  SFcompare x y = Some Eq -> SFcompare y x = Some Eq.
Proof.
  destruct x as [sx|sx| |sx mx ex], y as [sy|sy| |sy my ey]; cbn;
    try discriminate; try reflexivity;
    try (destruct sx; discriminate); try (destruct sy; discriminate).
  - destruct sx, sy; try discriminate; reflexivity.
  - destruct sx, sy; try discriminate;
      destruct (Z.compare_spec ex ey) as [->| |]; try discriminate;
      rewrite Z.compare_refl; fold (Pos.compare mx my); fold (Pos.compare my mx);
      destruct (Pos.compare_spec mx my) as [->| |]; try discriminate;
      rewrite Pos.compare_refl; reflexivity.
Qed.

(** Equal values are not strictly ordered. *)
Lemma float_eqb_not_ltb (x y : float) :
  PrimFloat.eqb x y = true -> PrimFloat.ltb y x = false.
Proof.
  rewrite FloatAxioms.eqb_spec, ltb_spec. unfold SFeqb, SFltb.
  destruct (SFcompare (Prim2SF x) (Prim2SF y)) as [[| |]|] eqn:E; try discriminate.
  intros _. rewrite (SFcompare_Eq_sym _ _ E). reflexivity.
Qed.

(** A value above zero is not zero. *)
Lemma float_pos_not_zero (x : float) :
  PrimFloat.ltb 0 x = true -> PrimFloat.eqb x 0 = false.
Proof.
  rewrite FloatAxioms.eqb_spec, ltb_spec. unfold SFeqb, SFltb.
  change (Prim2SF 0) with (S754_zero false).
  destruct (Prim2SF x) as [s|s| |s m e]; cbn; try discriminate;
    destruct s; try discriminate; reflexivity.
Qed.

(** ** The valuation model *)

(** The keyword list, keyword by keyword. *)
Lemma names_pb_sector_spelled industry :
  names_pb_sector industry <->
  occurs_in "Bank" industry \/ occurs_in "Insurance" industry \/
  occurs_in "Shipping" industry \/ occurs_in "Steel" industry \/
  occurs_in "Basic Materials" industry.
Proof.
  unfold names_pb_sector, pb_keywords. split.
  - intros (kw & Hin & Hocc).
    rewrite !elem_of_cons, elem_of_nil in Hin.
    destruct Hin as [->|[->|[->|[->|[->|[]]]]]]; tauto.
  - intros [H|[H|[H|[H|H]]]]; eexists; (split; [|exact H]);
      rewrite !elem_of_cons; tauto.
Qed.

(** C1. An industry string that contains "Bank", "Insurance", "Shipping",
    "Steel" or "Basic Materials" (as written, case included) selects the
    Price-to-Book model and the intrinsic value bookValue * 1.3; any other
    industry string selects Price-to-Earnings and trailingEps * trailingPE,
    with 15 in place of an absent trailingPE.  The first part is about the
    dictionary the analyzer returns, the second shows the valuation
    produced from numeric fields.  [0x1.4cccccccccccdp+0] is the binary64
    value of the literal 1.3. *)
Theorem valuation_model_by_industry :
  (forall w symbol cost_price res,
     get_stock_analysis w symbol cost_price = Some res ->
     exists industry,
       yf_info w symbol = Ok (res_info res) /\
       dict_get (res_info res) "industry" (PStr "") = PStr industry /\
       ((occurs_in "Bank" industry \/ occurs_in "Insurance" industry \/
        occurs_in "Shipping" industry \/ occurs_in "Steel" industry \/
        occurs_in "Basic Materials" industry) ->
          res_model_type res = "P/B" /\
          py_mul (dict_get (res_info res) "bookValue" (PInt 0))
                 (PFloat 0x1.4cccccccccccdp+0)
            = Ok (res_intrinsic res)) /\
       (~ (occurs_in "Bank" industry \/ occurs_in "Insurance" industry \/
        occurs_in "Shipping" industry \/ occurs_in "Steel" industry \/
        occurs_in "Basic Materials" industry) ->
          res_model_type res = "P/E" /\
          py_mul (dict_get (res_info res) "trailingEps" (PInt 0))
                 (dict_get (res_info res) "trailingPE" (PInt 15))
            = Ok (res_intrinsic res) /\
          (res_info res !! "trailingPE" = None ->
             py_mul (dict_get (res_info res) "trailingEps" (PInt 0)) (PInt 15)
               = Ok (res_intrinsic res)))) /\
  (forall info industry,
     dict_get info "industry" (PStr "") = PStr industry ->
     ((occurs_in "Bank" industry \/ occurs_in "Insurance" industry \/
        occurs_in "Shipping" industry \/ occurs_in "Steel" industry \/
        occurs_in "Basic Materials" industry) ->
        forall book, info !! "bookValue" = Some (PFloat book) ->
          valuation info
            = Ok (PFloat (PrimFloat.mul book 0x1.4cccccccccccdp+0), "P/B")) /\
     (~ (occurs_in "Bank" industry \/ occurs_in "Insurance" industry \/
        occurs_in "Shipping" industry \/ occurs_in "Steel" industry \/
        occurs_in "Basic Materials" industry) ->
        forall eps, info !! "trailingEps" = Some (PFloat eps) ->
          (forall pe, info !! "trailingPE" = Some (PFloat pe) ->
             valuation info = Ok (PFloat (PrimFloat.mul eps pe), "P/E")) /\
          (info !! "trailingPE" = None ->
             valuation info = Ok (PFloat (PrimFloat.mul eps 15), "P/E")))).
Proof.
  split.
  - intros w symbol cost_price res H.
    destruct (analysis_inv _ _ _ _ H) as
      (df0 & c1 & c2 & c3 & c4 & curr & prev & atr14 & closes & ma20 & A).
    destruct A as (_ & _ & _ & _ & _ & _ & _ & _ & _ & Hinfo & Hval & _).
    apply valuation_inv in Hval as (industry & Hind & Hcase).
    exists industry. rewrite <- names_pb_sector_spelled.
    split; [exact Hinfo|]. split; [exact Hind|]. split.
    + intros Hpb. destruct Hcase as [(_ & Hmt & Hv)|(Hn & _)]; [auto|contradiction].
    + intros Hn. destruct Hcase as [(Hpb & _)|(_ & Hmt & Hv)]; [contradiction|].
      split; [exact Hmt|]. split; [exact Hv|].
      intros Hpe. unfold dict_get in Hv |- *. rewrite Hpe in Hv. exact Hv.
  - intros info industry Hind. rewrite <- names_pb_sector_spelled.
    unfold valuation. rewrite Hind, py_any_in_str.
    cbn [mbind Exc_bind]. split.
    + intros Hpb book Hbook. apply names_pb_sector_spec in Hpb. rewrite Hpb.
      unfold dict_get. rewrite Hbook. reflexivity.
    + intros Hn eps Heps.
      destruct (existsb (fun x => str_contains x industry) pb_keywords) eqn:E.
      { apply names_pb_sector_spec in E. contradiction. }
      unfold dict_get. rewrite Heps. split.
      * intros pe Hpe. rewrite Hpe. reflexivity.
      * intros Hpe. rewrite Hpe. reflexivity.
Qed.

(** Scenario 3: industry "Regional Banks", bookValue 20, no cost basis. *)
Lemma valuation_model_by_industry_witness :
  exists res,
    get_stock_analysis Fixture.scenario3 "XYZ" PNone = Some res /\
    res_model_type res = "P/B" /\ res_intrinsic res = PFloat 26.
Proof.
  destruct (get_stock_analysis Fixture.scenario3 "XYZ" PNone) as [res|] eqn:H;
    [|vm_compute in H; discriminate].
  exists res. split; [reflexivity|].
  destruct (proj1 valuation_model_by_industry _ _ _ _ H)
    as (industry & Hinfo & Hind & Hpb & _).
  assert (res_info res = Fixture.regional_bank) as Ei
    by (change (Ok Fixture.regional_bank = Ok (res_info res)) in Hinfo; congruence).
  rewrite Ei in Hind, Hpb.
  assert (industry = "Regional Banks") as -> by (vm_compute in Hind; congruence).
  destruct Hpb as [Hmt Hv].
  - left. exists "Regional ", "s". reflexivity.
  - split; [exact Hmt|]. vm_compute in Hv. injection Hv as Hv. symmetry. exact Hv.
Defined.

(** Each of the five keywords selects Price-to-Book, wherever it stands in
    the industry string. *)
Example every_keyword_selects_price_to_book :
  map (fun industry =>
         valuation {[ "industry" := PStr industry; "bookValue" := PFloat 10;
                      "trailingEps" := PFloat 2 ]})
      ["Banks - Regional"; "Life Insurance"; "Marine Shipping"; "Steel";
       "Other Basic Materials"; "Steelmaking coal"; "Software"]
  = [Ok (PFloat 13, "P/B"); Ok (PFloat 13, "P/B"); Ok (PFloat 13, "P/B");
     Ok (PFloat 13, "P/B"); Ok (PFloat 13, "P/B"); Ok (PFloat 13, "P/B");
     Ok (PFloat 30, "P/E")].
Proof. vm_compute. reflexivity. Qed.

(** ** Stop-loss and trend *)

Lemma latest_of_row df curr key x :
  Pd.iloc df (-1) = Ok curr -> Pd.getitem curr key = Ok x -> latest df key = Ok x.
Proof. unfold latest. intros -> H. exact H. Qed.

(** C2. Whenever the analyzer returns a dictionary, its stop-loss is the
    latest close minus 2 times the latest ATR(14), whatever cost basis
    was passed: the same run without a cost basis returns a dictionary
    with the same stop-loss. *)
Theorem stop_loss_is_close_minus_two_atr w symbol cost_price res :
  get_stock_analysis w symbol cost_price = Some res ->
  (exists close atr14,
     latest (res_df res) "Close" = Ok close /\
     latest (res_df res) "ATRr_14" = Ok atr14 /\
     res_price res = close /\
     res_stop_loss res = PrimFloat.sub close (PrimFloat.mul 2 atr14)) /\
  (exists res0,
     get_stock_analysis w symbol PNone = Some res0 /\
     res_stop_loss res0 = res_stop_loss res) /\
  (forall cost_price' res',
     get_stock_analysis w symbol cost_price' = Some res' ->
     res_stop_loss res' = res_stop_loss res).
Proof.
  intros H.
  destruct (analysis_inv _ _ _ _ H) as
    (df0 & c1 & c2 & c3 & c4 & curr & prev & atr14 & closes & ma20 & A).
  destruct A as (Hdl & Hne & Hc1 & Hc2 & Hc3 & Hc4 & Hdf & Hcurr & Hprev & Hinfo &
                 Hval & Hclose & Hatr & Hstop & Hcloses & Hma & Htrend & Hk & Hrsi &
                 Hmh & Hroi).
  split; [|split].
  - exists (res_price res), atr14.
    split; [eapply latest_of_row; eassumption|].
    split; [eapply latest_of_row; eassumption|].
    split; [reflexivity|]. rewrite (float_mul_comm 2 atr14). exact Hstop.
  - exists {| res_df := res_df res; res_info := res_info res;
              res_price := res_price res; res_intrinsic := res_intrinsic res;
              res_model_type := res_model_type res; res_k := res_k res;
              res_rsi := res_rsi res; res_macd_h := res_macd_h res;
              res_stop_loss := res_stop_loss res; res_trend := res_trend res;
              res_roi := None |}.
    split; [|reflexivity]. apply analysis_intro.
    exists df0, c1, c2, c3, c4, curr, prev, atr14, closes, ma20.
    cbn [res_df res_info res_price res_intrinsic res_model_type res_k res_rsi
         res_macd_h res_stop_loss res_trend res_roi truthy].
    repeat (split; [assumption|]). reflexivity.
  - intros cost_price' res' H'.
    destruct (analysis_inv _ _ _ _ H') as
      (df0' & c1' & c2' & c3' & c4' & curr' & prev' & atr14' & closes' & ma20' & A').
    destruct A' as (Hdl' & _ & Hc1' & Hc2' & Hc3' & Hc4' & Hdf' & Hcurr' & _ & _ &
                    _ & Hclose' & Hatr' & Hstop' & _).
    assert (df0' = df0) as -> by congruence.
    assert (c1' = c1) as -> by congruence.
    assert (c2' = c2) as -> by congruence.
    assert (c3' = c3) as -> by congruence.
    assert (c4' = c4) as -> by congruence.
    assert (res_df res' = res_df res) as E by congruence.
    rewrite E in Hcurr'. assert (curr' = curr) as -> by congruence.
    assert (atr14' = atr14) as -> by congruence.
    assert (res_price res' = res_price res) as Ep by congruence.
    rewrite Hstop', Hstop, Ep. reflexivity.
Qed.

(** Scenario 1, with the cost basis 500. *)
Lemma stop_loss_is_close_minus_two_atr_witness :
  exists res,
    get_stock_analysis Fixture.scenario1 "2330.TW" (PInt 500) = Some res /\
    (exists close atr14,
       latest (res_df res) "Close" = Ok close /\
       latest (res_df res) "ATRr_14" = Ok atr14 /\
       res_price res = close /\
       res_stop_loss res = PrimFloat.sub close (PrimFloat.mul 2 atr14)) /\
    (exists res0,
       get_stock_analysis Fixture.scenario1 "2330.TW" PNone = Some res0 /\
       res_stop_loss res0 = res_stop_loss res).
Proof.
  destruct (get_stock_analysis Fixture.scenario1 "2330.TW" (PInt 500))
    as [res|] eqn:H; [|vm_compute in H; discriminate].
  exists res. split; [reflexivity|].
  destruct (stop_loss_is_close_minus_two_atr _ _ _ _ H) as (A & B & _).
  split; [exact A|exact B].
Defined.

(** C3. The trend label is the strong one exactly when the latest close
    is strictly above the 20-day rolling mean of the closes; a close equal
    to the mean gets the weakening label. *)
Theorem trend_strong_iff_close_above_ma20 w symbol cost_price res :
  get_stock_analysis w symbol cost_price = Some res ->
  exists close closes ma20,
    latest (res_df res) "Close" = Ok close /\
    Pd.column (res_df res) "Close" = Ok closes /\
    Pd.at_position (rolling_mean w 20 closes) (-1) = Ok ma20 /\
    (res_trend res = TREND_STRONG <-> PrimFloat.ltb ma20 close = true) /\
    (res_trend res <> TREND_STRONG -> res_trend res = TREND_WEAK) /\
    (PrimFloat.eqb close ma20 = true -> res_trend res = TREND_WEAK).
Proof.
  intros H.
  destruct (analysis_inv _ _ _ _ H) as
    (df0 & c1 & c2 & c3 & c4 & curr & prev & atr14 & closes & ma20 & A).
  destruct A as (_ & _ & _ & _ & _ & _ & _ & Hcurr & _ & _ & _ & Hclose & _ & _ &
                 Hcloses & Hma & Htrend & _).
  exists (res_price res), closes, ma20.
  split; [eapply latest_of_row; eassumption|].
  split; [exact Hcloses|]. split; [exact Hma|].
  rewrite Htrend. split; [|split].
  - destruct (PrimFloat.ltb ma20 (res_price res)); split; try reflexivity;
      discriminate.
  - destruct (PrimFloat.ltb ma20 (res_price res)); [contradiction|reflexivity].
  - intros E. rewrite (float_eqb_not_ltb _ _ E). reflexivity.
Qed.

(** Scenario 1: 550 is above the mean 540, the trend is strong. *)
Lemma trend_strong_iff_close_above_ma20_witness :
  exists res,
    get_stock_analysis Fixture.scenario1 "2330.TW" (PInt 500) = Some res /\
    res_trend res = TREND_STRONG.
Proof.
  destruct (get_stock_analysis Fixture.scenario1 "2330.TW" (PInt 500))
    as [res|] eqn:H; [|vm_compute in H; discriminate].
  exists res. split; [reflexivity|].
  destruct (trend_strong_iff_close_above_ma20 _ _ _ _ H)
    as (close & closes & ma20 & Hc & Hcs & Hma & Hiff & _).
  apply Hiff. clear Hiff.
  assert (Ok 550%float = Ok close) as [= <-] by (rewrite <- Hc; from_run H).
  assert (Ok [541; 550]%float = Ok closes) as [= <-] by (rewrite <- Hcs; from_run H).
  vm_compute in Hma. injection Hma as <-. reflexivity.
Defined.

(** ** The card *)

Lemma page_bind_emit {B} (x : Widget) (k : unit -> Page B) :
  emit x ≫= k = Render (x :: shown (k tt)) (outcome (k tt)).
Proof. reflexivity. Qed.

Lemma page_eta {A} (p : Page A) : Render (shown p) (outcome p) = p.
Proof. destruct p. reflexivity. Qed.

Lemma page_bind_ret {A B} (a : A) (k : A -> Page B) : mret a ≫= k = k a.
Proof. unfold mret, Page_ret, mbind, Page_bind. cbn. apply page_eta. Qed.

Lemma page_bind_assoc {A B C} (m : Page A) (f : A -> Page B) (g : B -> Page C) :
  (m ≫= f) ≫= g = m ≫= (fun a => f a ≫= g).
Proof.
  destruct m as [ws [e|a]]; [reflexivity|].
  unfold mbind, Page_bind. cbn [shown outcome].
  destruct (f a) as [ws' [e|b]]; cbn [shown outcome]; [reflexivity|].
  rewrite app_assoc. reflexivity.
Qed.

Lemma for_each_emit (ws : list Widget) : for_each emit ws = Render ws (Ok tt).
Proof.
  induction ws as [|x ws IH]; [reflexivity|].
  cbn [for_each]. rewrite page_bind_emit, IH. reflexivity.
Qed.

Lemma for_each_app {A} (f : A -> Page unit) (xs ys : list A) :
  for_each f (xs ++ ys) = (for_each f xs ;; for_each f ys).
Proof.
  induction xs as [|x xs IH]; cbn [for_each app].
  - rewrite page_bind_ret. reflexivity.
  - rewrite IH, page_bind_assoc. reflexivity.
Qed.

(** The elements of a bind begin with those of its first part. *)
Lemma shown_bind_prefix {A B} (m : Page A) (f : A -> Page B) :
  exists tail, shown (m ≫= f) = (shown m ++ tail)%list.
Proof.
  unfold mbind, Page_bind. destruct (outcome m) as [e|a]; cbn [shown].
  - exists []. rewrite app_nil_r. reflexivity.
  - eauto.
Qed.

Lemma shown_bind_Ok {A B} (m : Page A) (f : A -> Page B) a :
  outcome m = Ok a -> shown (m ≫= f) = (shown m ++ shown (f a))%list.
Proof. intros H. unfold mbind, Page_bind. rewrite H. reflexivity. Qed.

(** A card begins with its title, its tag and its price tile, whatever
    happens further down. *)
Lemma render_card_head w symbol res :
  exists rest outcome,
    render_card w symbol res =
      Render
        (st_markdown c_title
           [Lit "### "; Lit symbol; Lit " - ";
            Shown (dict_get (res_info res) "shortName" (PStr ""))]
         :: st_markdown c_tag
              [Lit ":";
               Lit (if str_contains "強勢" (res_trend res) then "green" else "orange");
               Lit "[**"; Lit (res_trend res); Lit "**]"]
         :: st_metric m1 [Lit "當前股價"] [Fixed 2 (res_price res)] None
         :: rest) outcome.
Proof.
  unfold render_card. rewrite page_bind_emit. cbn [shown outcome].
  rewrite page_bind_emit. cbn [shown outcome].
  rewrite page_bind_emit. cbn [shown outcome]. eauto.
Qed.

(** What a card that rendered to its end shows, element by element. *)
Lemma render_card_inv w symbol res :
  outcome (render_card w symbol res) = Ok tt ->
  exists value open high low close cheap,
    format_fixed 2 (res_intrinsic res) = Ok value /\
    Pd.column (res_df res) "Open" = Ok open /\
    Pd.column (res_df res) "High" = Ok high /\
    Pd.column (res_df res) "Low" = Ok low /\
    Pd.column (res_df res) "Close" = Ok close /\
    np_lt (res_price res) (res_intrinsic res) = Ok cheap /\
    shown (render_card w symbol res) =
      ([ st_markdown c_title
          [Lit "### "; Lit symbol; Lit " - ";
           Shown (dict_get (res_info res) "shortName" (PStr ""))];
        st_markdown c_tag
          [Lit ":";
           Lit (if str_contains "強勢" (res_trend res) then "green" else "orange");
           Lit "[**"; Lit (res_trend res); Lit "**]"];
        st_metric m1 [Lit "當前股價"] [Fixed 2 (res_price res)] None;
        st_metric m2 [Lit "AI 內在價值 ("; Lit (res_model_type res); Lit ")"]
          [value] None ]
      ++ cost_tiles res
      ++ (if is_not_None (res_roi res)
             && PrimFloat.ltb (res_price res) (res_stop_loss res)
          then [stop_banner res] else [])
      ++ [ st_plotly_chart (expander EXPANDER)
             (mkFigure (Pd.index (res_df res)) open high low close
                (rolling_mean w 20 close));
           ai_comment
             (if cheap then "具備安全邊際" else "股價偏高")
             (if PrimFloat.ltb 0 (res_macd_h res) then "動能轉強" else "動能疲弱")
             (if PrimFloat.ltb 0 (res_macd_h res) && cheap
              then "偏多操作" else "暫時觀望");
           st_markdown body [Lit "---"] ])%list.
Proof.
  unfold render_card. rewrite for_each_emit.
  destruct (format_fixed 2 (res_intrinsic res)) as [e|value];
    [cbn; discriminate|].
  destruct (Pd.column (res_df res) "Open") as [e|open];
    [destruct (is_not_None (res_roi res) &&
               PrimFloat.ltb (res_price res) (res_stop_loss res));
     cbn; discriminate|].
  destruct (Pd.column (res_df res) "High") as [e|high];
    [destruct (is_not_None (res_roi res) &&
               PrimFloat.ltb (res_price res) (res_stop_loss res));
     cbn; discriminate|].
  destruct (Pd.column (res_df res) "Low") as [e|low];
    [destruct (is_not_None (res_roi res) &&
               PrimFloat.ltb (res_price res) (res_stop_loss res));
     cbn; discriminate|].
  destruct (Pd.column (res_df res) "Close") as [e|close];
    [destruct (is_not_None (res_roi res) &&
               PrimFloat.ltb (res_price res) (res_stop_loss res));
     cbn; discriminate|].
  destruct (np_lt (res_price res) (res_intrinsic res)) as [e|cheap];
    [destruct (is_not_None (res_roi res) &&
               PrimFloat.ltb (res_price res) (res_stop_loss res));
     cbn; discriminate|].
  intros _. exists value, open, high, low, close, cheap.
  repeat (split; [reflexivity|]).
  destruct (is_not_None (res_roi res) &&
            PrimFloat.ltb (res_price res) (res_stop_loss res));
    destruct (PrimFloat.ltb 0 (res_macd_h res)); reflexivity.
Qed.

(** ** The cost basis of a row *)

Lemma row_cost_spec t row :
  row_cost t row = Ok (default (PInt 0) (cost_basis t row)).
Proof.
  unfold row_cost, cost_basis, cell.
  destruct (has_column t "Cost"); cbn [mbind Exc_bind]; [|reflexivity].
  destruct (isna (default (PFloat nan) (row !! "Cost"))); reflexivity.
Qed.

Lemma positive_is_truthy c : py_gt_zero c = Ok true -> truthy c = true.
Proof.
  destruct c as [|b|n|x|s]; cbn [py_gt_zero truthy]; try discriminate.
  - intros [= ->]. reflexivity.
  - intros [= H]. apply Z.ltb_lt in H. apply negb_true_iff, Z.eqb_neq. lia.
  - intros [= H]. rewrite (float_pos_not_zero _ H). reflexivity.
Qed.

(** The cost basis the analyzer receives is the positive one the row
    states, or [None]. *)
Lemma cost_price_of_row t row cost_price :
  row_cost t row ≫= cost_price_of = Ok cost_price ->
  (positive_cost_basis t row /\ cost_basis t row = Some cost_price /\
   truthy cost_price = true) \/
  (~ positive_cost_basis t row /\ cost_price = PNone).
Proof.
  rewrite row_cost_spec. cbn [mbind Exc_bind]. unfold cost_price_of.
  intros H. apply exc_bind_Ok in H as (positive & Hpos & [= <-]).
  unfold positive_cost_basis. destruct positive.
  - left. destruct (cost_basis t row) as [c|]; [|discriminate].
    cbn [from_option id] in *. split; [eauto|]. split; [reflexivity|].
    apply positive_is_truthy. exact Hpos.
  - right. split; [|reflexivity]. intros (c & Hc & Hgt).
    rewrite Hc in Hpos. cbn [from_option id] in Hpos. congruence.
Qed.

Lemma analyze_row_inv w t row symbol res :
  analyze_row w t row = Ok (symbol, res) ->
  exists cost_price,
    row_cost t row ≫= cost_price_of = Ok cost_price /\
    get_stock_analysis w symbol cost_price = res.
Proof.
  unfold analyze_row. intros H.
  apply exc_bind_Ok in H as (ticker & Hticker & H).
  apply exc_bind_Ok in H as (cost & Hcost & H).
  apply exc_bind_Ok in H as (cost_price & Hcp & [= <- <-]).
  exists cost_price. rewrite Hcost. split; [exact Hcp|reflexivity].
Qed.

(** The return on cost of an analyzed row, by the cost basis it states. *)
Lemma roi_of_row w t row symbol res :
  analyze_row w t row = Ok (symbol, Some res) ->
  (positive_cost_basis t row /\
   exists c r, cost_basis t row = Some c /\ py_gt_zero c = Ok true /\
               return_on_cost (res_price res) c = Ok r /\ res_roi res = Some r) \/
  (~ positive_cost_basis t row /\ res_roi res = None).
Proof.
  intros H. apply analyze_row_inv in H as (cost_price & Hcp & Hres).
  destruct (analysis_inv _ _ _ _ Hres) as
    (df0 & c1 & c2 & c3 & c4 & curr & prev & atr14 & closes & ma20 & A).
  destruct A as (_ & _ & _ & _ & _ & _ & _ & _ & _ & _ & _ & _ & _ & _ & _ & _ &
                 _ & _ & _ & _ & Hroi).
  destruct (cost_price_of_row _ _ _ Hcp) as [(Hpos & Hc & Ht)|(Hn & ->)].
  - left. split; [exact Hpos|]. rewrite Ht in Hroi. destruct Hroi as (r & Hr & E).
    destruct Hpos as (c & Hc' & Hgt).
    assert (c = cost_price) as -> by congruence.
    exists cost_price, r. auto.
  - right. auto.
Qed.

(** C4. A row that is analyzed carries a return on cost exactly when it
    states a cost basis above zero, and then the return is
    (latest close - cost basis) / cost basis * 100, in binary64 and in
    this order of operations: for a cost basis written as a float [x] it is
    [(price - x) / x * 100]; for one written as an integer [n] the same
    with the float nearest [n].  A row with no cost basis, or one that is
    not above zero, carries none, and its card shows the KD and RSI tiles
    where the return and the stop-loss would be. *)
Theorem return_on_cost_iff_positive_cost_basis w t row symbol res :
  analyze_row w t row = Ok (symbol, Some res) ->
  (is_Some (res_roi res) <-> positive_cost_basis t row) /\
  (forall c, cost_basis t row = Some c -> py_gt_zero c = Ok true ->
     exists r, res_roi res = Some r /\
               latest (res_df res) "Close" = Ok (res_price res) /\
               return_on_cost (res_price res) c = Ok r /\
               (exists cost,
                  to_float c = Ok cost /\
                  r = PrimFloat.mul
                        (PrimFloat.div (PrimFloat.sub (res_price res) cost) cost)
                        100) /\
               (forall x, c = PFloat x ->
                  r = PrimFloat.mul
                        (PrimFloat.div (PrimFloat.sub (res_price res) x) x)
                        100) /\
               (forall n, c = PInt n ->
                  let x := SF2Prim (binary_normalize prec emax n 0 false) in
                  r = PrimFloat.mul
                        (PrimFloat.div (PrimFloat.sub (res_price res) x) x)
                        100)) /\
  (~ positive_cost_basis t row ->
     res_roi res = None /\
     (outcome (render_card w symbol res) = Ok tt ->
      exists price_tile value_tile,
        headline (render_card w symbol res) =
          [ price_tile; value_tile;
            st_metric m3 [Lit "KD (K值)"] [Fixed 1 (res_k res)] None;
            st_metric m4 [Lit "RSI (14)"] [Fixed 1 (res_rsi res)] None ])) /\
  (positive_cost_basis t row ->
     outcome (render_card w symbol res) = Ok tt ->
     exists r price_tile value_tile,
       res_roi res = Some r /\
       headline (render_card w symbol res) =
         [ price_tile; value_tile;
           st_metric m3 [Lit "我的報酬率"] [Fixed 2 r; Lit "%"]
             (Some [Fixed 2 r; Lit "%"]);
           st_metric m4 [Lit "建議止損位"] [Fixed 2 (res_stop_loss res)] None ]).
Proof.
  intros H.
  assert (Hlatest : latest (res_df res) "Close" = Ok (res_price res)).
  { destruct (analyze_row_inv _ _ _ _ _ H) as (cp & _ & Hres).
    destruct (analysis_inv _ _ _ _ Hres) as
      (df0 & c1 & c2 & c3 & c4 & curr & prev & atr14 & closes & ma20 & A).
    destruct A as (_ & _ & _ & _ & _ & _ & _ & Hcurr & _ & _ & _ & Hclose & _).
    eapply latest_of_row; eassumption. }
  assert (Htiles : outcome (render_card w symbol res) = Ok tt ->
            exists price_tile value_tile,
              headline (render_card w symbol res) =
                price_tile :: value_tile :: cost_tiles res).
  { intros Hok. apply render_card_inv in Hok as
      (value & open & high & low & close & cheap & _ & _ & _ & _ & _ & _ & Hshown).
    unfold headline. rewrite Hshown, !List.filter_app.
    eexists _, _. unfold cost_tiles.
    destruct (res_roi res);
      destruct (is_not_None _ && PrimFloat.ltb (res_price res) (res_stop_loss res));
      reflexivity. }
  assert (Hformula : forall c r, return_on_cost (res_price res) c = Ok r ->
            exists cost,
              to_float c = Ok cost /\
              r = PrimFloat.mul
                    (PrimFloat.div (PrimFloat.sub (res_price res) cost) cost) 100).
  { intros c r Hr. unfold return_on_cost, np_sub, np_div in Hr.
    destruct (to_float c) as [e|cost]; cbn [mbind Exc_bind] in Hr; [discriminate|].
    injection Hr as <-. eauto. }
  destruct (roi_of_row _ _ _ _ _ H)
    as [(Hpos & c & r & Hc & Hgt & Hr & Hroi)|(Hn & Hroi)].
  - split; [rewrite Hroi; split; eauto|]. split; [|split].
    + intros c' Hc' _. assert (c' = c) as -> by congruence.
      destruct (Hformula _ _ Hr) as (cost & Hcost & Er).
      exists r. repeat split; eauto.
      * intros x ->. cbn [to_float] in Hcost. congruence.
      * intros n -> x. cbn [to_float] in Hcost. unfold float_of_int in Hcost.
        fold x in Hcost. destruct (is_infinity x); congruence.
    + intros Hn. contradiction.
    + intros _ Hok. destruct (Htiles Hok) as (pt & vt & E).
      exists r, pt, vt. split; [exact Hroi|].
      rewrite E. unfold cost_tiles. rewrite Hroi. reflexivity.
  - split; [rewrite Hroi; split; [intros [? ?]; discriminate|contradiction]|].
    split; [|split].
    + intros c Hc Hgt. exfalso. apply Hn. exists c. auto.
    + intros _. split; [exact Hroi|]. intros Hok.
      destruct (Htiles Hok) as (pt & vt & E). exists pt, vt.
      rewrite E. unfold cost_tiles. rewrite Hroi. reflexivity.
    + intros Hpos. contradiction.
Qed.

(** Scenario 1: bought at 500, closing at 550, the return is
    (550 - 500) / 500 * 100 = 10%. *)
Lemma return_on_cost_iff_positive_cost_basis_witness :
  exists res,
    analyze_row Fixture.scenario1 Fixture.watchlist Fixture.row_2330
      = Ok ("2330.TW", Some res) /\
    res_price res = 550%float /\
    res_roi res
      = Some (PrimFloat.mul (PrimFloat.div (PrimFloat.sub 550 500) 500) 100) /\
    res_roi res = Some 10%float.
Proof.
  destruct (analyze_row Fixture.scenario1 Fixture.watchlist Fixture.row_2330)
    as [e|[symbol [res|]]] eqn:H; try (vm_compute in H; discriminate).
  assert (symbol = "2330.TW") as ->.
  { assert (E : match analyze_row Fixture.scenario1 Fixture.watchlist Fixture.row_2330
                with Ok (s, _) => s = "2330.TW" | _ => True end)
      by (vm_compute; reflexivity).
    rewrite H in E. exact E. }
  exists res. split; [reflexivity|].
  assert (Hprice : res_price res = 550%float) by from_run H.
  split; [exact Hprice|].
  destruct (return_on_cost_iff_positive_cost_basis _ _ _ _ _ H) as (_ & Hroi & _).
  destruct (Hroi (PInt 500)) as (r & -> & _ & _ & _ & _ & Hint);
    [vm_compute; reflexivity|vm_compute; reflexivity|].
  specialize (Hint 500 eq_refl). cbv zeta in Hint. rewrite Hprice in Hint.
  rewrite Hint. split; f_equal; vm_compute; reflexivity.
Defined.

(** ** The warning banner *)

(** C5. On a card that renders to its end, the stop-loss banner appears
    exactly when the row states a cost basis above zero (so that the
    dictionary carries a return on cost) and the latest price is strictly
    below the stop-loss; no other error box is shown. *)
Theorem stop_banner_iff_cost_and_below_stop w t row symbol res :
  analyze_row w t row = Ok (symbol, Some res) ->
  outcome (render_card w symbol res) = Ok tt ->
  (warns (render_card w symbol res) <->
     positive_cost_basis t row /\
     PrimFloat.ltb (res_price res) (res_stop_loss res) = true) /\
  (is_Some (res_roi res) <-> positive_cost_basis t row) /\
  (forall text, st_error text ∈ shown (render_card w symbol res) ->
     st_error text = stop_banner res).
Proof.
  intros H Hok.
  assert (Hiff : is_Some (res_roi res) <-> positive_cost_basis t row).
  { destruct (roi_of_row _ _ _ _ _ H)
      as [(Hpos & c & r & _ & _ & _ & Hroi)|(Hn & Hroi)]; rewrite Hroi.
    - split; eauto.
    - split; [intros [? ?]; discriminate|contradiction]. }
  apply render_card_inv in Hok as
    (value & open & high & low & close & cheap & _ & _ & _ & _ & _ & _ & Hshown).
  assert (Hin : forall text, st_error text ∈ shown (render_card w symbol res) <->
            st_error text = stop_banner res /\
            is_not_None (res_roi res)
              && PrimFloat.ltb (res_price res) (res_stop_loss res) = true).
  { intros text. rewrite Hshown, !elem_of_app, !elem_of_cons, !elem_of_nil.
    unfold cost_tiles, ai_comment.
    destruct (is_not_None (res_roi res)
                && PrimFloat.ltb (res_price res) (res_stop_loss res)).
    - rewrite list_elem_of_singleton.
      destruct (res_roi res); rewrite !elem_of_cons, elem_of_nil;
        split; [intros H'|intros [-> _]; tauto|intros H'|intros [-> _]; tauto];
        decompose [or] H'; try discriminate; try contradiction; auto.
    - rewrite elem_of_nil.
      destruct (res_roi res); rewrite !elem_of_cons, elem_of_nil;
        split; [intros H'|intros [_ ?]; discriminate|intros H'|
                intros [_ ?]; discriminate];
        decompose [or] H'; try discriminate; try contradiction. }
  assert (Hsome : is_not_None (res_roi res) = true <-> is_Some (res_roi res)).
  { destruct (res_roi res); cbn; split; eauto; try discriminate.
    intros [? ?]; discriminate. }
  split; [|split].
  - unfold warns. split.
    + intros (text & Htext). apply Hin in Htext as (_ & Hcond).
      apply andb_true_iff in Hcond as [Hr Hlt]. split; [|exact Hlt].
      apply Hiff, Hsome, Hr.
    + intros (Hpos & Hlt). eexists. apply Hin. split; [reflexivity|].
      apply andb_true_iff. split; [|exact Hlt]. apply Hsome, Hiff, Hpos.
  - exact Hiff.
  - intros text Htext. apply Hin in Htext as (E & _). exact E.
Qed.

(** Scenario 2: bought at 500, the close 525 is under the stop 530. *)
Lemma stop_banner_iff_cost_and_below_stop_witness :
  exists res,
    analyze_row Fixture.scenario2 Fixture.watchlist Fixture.row_2330
      = Ok ("2330.TW", Some res) /\
    warns (render_card Fixture.scenario2 "2330.TW" res).
Proof.
  destruct (analyze_row Fixture.scenario2 Fixture.watchlist Fixture.row_2330)
    as [e|[symbol [res|]]] eqn:H; try (vm_compute in H; discriminate).
  assert (symbol = "2330.TW") as ->.
  { assert (E : match analyze_row Fixture.scenario2 Fixture.watchlist Fixture.row_2330
                with Ok (s, _) => s = "2330.TW" | _ => True end)
      by (vm_compute; reflexivity).
    rewrite H in E. exact E. }
  exists res. split; [reflexivity|].
  assert (Hok : outcome (render_card Fixture.scenario2 "2330.TW" res) = Ok tt)
    by from_run H.
  apply (stop_banner_iff_cost_and_below_stop _ _ _ _ _ H Hok). split.
  - exists (PInt 500). split; vm_compute; reflexivity.
  - from_run H.
Defined.

(** ** The comment under the chart *)

(** C8. On a card that renders to its end there is one comment, in the
    expander under the chart: the sentence
    "🤖 **AI 診斷報告**：目前價值面 **B**，技術面指標顯示 **T**。建議：A。"
    where B speaks of a margin of safety exactly when the price is below
    the intrinsic value, T of strengthening momentum exactly when the MACD
    histogram is above zero, and A advises the bullish side exactly when
    both hold; in every other case it advises to wait. *)
Theorem ai_comment_verdicts w symbol res :
  outcome (render_card w symbol res) = Ok tt ->
  exists buy_signal tech_signal advice,
    st_info (expander "📊 查看技術圖表與 AI 綜合評論")
      [Lit "🤖 **AI 診斷報告**：目前價值面 **"; Lit buy_signal;
       Lit "**，技術面指標顯示 **"; Lit tech_signal;
       Lit "**。建議："; Lit advice; Lit "。"]
      ∈ shown (render_card w symbol res) /\
    (forall slot text,
       st_info slot text ∈ shown (render_card w symbol res) ->
       st_info slot text =
         st_info (expander "📊 查看技術圖表與 AI 綜合評論")
      [Lit "🤖 **AI 診斷報告**：目前價值面 **"; Lit buy_signal;
       Lit "**，技術面指標顯示 **"; Lit tech_signal;
       Lit "**。建議："; Lit advice; Lit "。"]) /\
    (buy_signal = "具備安全邊際" <->
       np_lt (res_price res) (res_intrinsic res) = Ok true) /\
    (buy_signal <> "具備安全邊際" -> buy_signal = "股價偏高") /\
    (tech_signal = "動能轉強" <-> PrimFloat.ltb 0 (res_macd_h res) = true) /\
    (tech_signal <> "動能轉強" -> tech_signal = "動能疲弱") /\
    (advice = "偏多操作" <->
       PrimFloat.ltb 0 (res_macd_h res) = true /\
       np_lt (res_price res) (res_intrinsic res) = Ok true) /\
    (advice <> "偏多操作" -> advice = "暫時觀望").
Proof.
  intros Hok. apply render_card_inv in Hok as
    (value & open & high & low & close & cheap & _ & _ & _ & _ & _ & Hlt & Hshown).
  unfold ai_comment, EXPANDER in Hshown.
  eexists _, _, _. split; [|split].
  - rewrite Hshown, !elem_of_app, !elem_of_cons. auto 10.
  - intros slot text. rewrite Hshown, !elem_of_app, !elem_of_cons, !elem_of_nil.
    unfold cost_tiles, stop_banner.
    destruct (res_roi res);
      destruct (is_not_None _ && PrimFloat.ltb (res_price res) (res_stop_loss res));
      rewrite ?elem_of_cons, ?elem_of_nil; intros H;
      decompose [or] H; try discriminate; try contradiction; assumption.
  - rewrite Hlt.
    destruct cheap, (PrimFloat.ltb 0 (res_macd_h res)); cbn [andb];
      repeat split; intros; try reflexivity; try discriminate; try congruence;
      try tauto;
      match goal with
      | H : _ /\ _ |- _ => destruct H; discriminate
      end.
Qed.

(** Scenario 1: 550 under an intrinsic value of 800, histogram 0.5. *)
Lemma ai_comment_verdicts_witness :
  exists res,
    get_stock_analysis Fixture.scenario1 "2330.TW" (PInt 500) = Some res /\
    st_info (expander "📊 查看技術圖表與 AI 綜合評論")
      [Lit "🤖 **AI 診斷報告**：目前價值面 **"; Lit "具備安全邊際";
       Lit "**，技術面指標顯示 **"; Lit "動能轉強";
       Lit "**。建議："; Lit "偏多操作"; Lit "。"]
      ∈ shown (render_card Fixture.scenario1 "2330.TW" res).
Proof.
  destruct (get_stock_analysis Fixture.scenario1 "2330.TW" (PInt 500))
    as [res|] eqn:H; [|vm_compute in H; discriminate].
  exists res. split; [reflexivity|].
  assert (Hok : outcome (render_card Fixture.scenario1 "2330.TW" res) = Ok tt)
    by from_run H.
  destruct (ai_comment_verdicts _ _ _ Hok)
    as (buy & tech & advice & Hin & _ & Hbuy & _ & Htech & _ & Hadv & _).
  assert (Hlt : np_lt (res_price res) (res_intrinsic res) = Ok true) by from_run H.
  assert (Hup : PrimFloat.ltb 0 (res_macd_h res) = true) by from_run H.
  assert (buy = "具備安全邊際") as <- by (apply Hbuy; exact Hlt).
  assert (tech = "動能轉強") as <- by (apply Htech; exact Hup).
  assert (advice = "偏多操作") as <- by (apply Hadv; split; assumption).
  exact Hin.
Defined.

(** ** Symbols that cannot be analyzed *)

Lemma len_assign df name col : Pd.len (Pd.assign df name col) = Pd.len df.
Proof. reflexivity. Qed.

Lemma len_append df cols : Pd.len (Pd.append df cols) = Pd.len df.
Proof.
  unfold Pd.append. revert df.
  induction cols as [|nc cols IH]; intros df; cbn [fold_left]; [reflexivity|].
  rewrite IH. apply len_assign.
Qed.

Lemma iloc_second_last df row : Pd.iloc df (-2) = Ok row -> (2 <= Pd.len df)%nat.
Proof.
  unfold Pd.iloc. intros H. apply exc_bind_Ok in H as (j & Hj & _).
  unfold Pd.position in Hj. cbn [Z.ltb Z.compare] in Hj.
  destruct ((0 <=? Z.of_nat (Pd.len df) + -2) && _) eqn:Hc; [|discriminate].
  apply andb_true_iff in Hc as [H0 _]. apply Z.leb_le in H0. lia.
Qed.

(** The frame a returned dictionary carries has the rows of the fetch. *)
Lemma analysis_rows w symbol cost_price res :
  get_stock_analysis w symbol cost_price = Some res ->
  exists df, yf_download w symbol "1y" "1d" = Ok df /\
             Pd.empty df = false /\
             Pd.len (res_df res) = Pd.len df /\ (2 <= Pd.len df)%nat.
Proof.
  intros H.
  destruct (analysis_inv _ _ _ _ H) as
    (df0 & c1 & c2 & c3 & c4 & curr & prev & atr14 & closes & ma20 & A).
  destruct A as (Hdl & Hne & _ & _ & _ & _ & Hdf & _ & Hprev & _).
  assert (Hlen : Pd.len (res_df res) = Pd.len df0)
    by (rewrite Hdf, !len_append; reflexivity).
  exists df0. repeat (split; [assumption|]).
  rewrite <- Hlen. eapply iloc_second_last. exact Hprev.
Qed.

(** C10. A fetch of exactly one bar yields [None]: the analyzer reads the
    second-to-last row whatever the indicators returned, the read fails
    and the handler absorbs it.  A dictionary is returned only for a fetch
    of two bars or more. *)
Theorem one_bar_series_is_unavailable w symbol cost_price :
  (forall df,
     yf_download w symbol "1y" "1d" = Ok df -> Pd.len df = 1%nat ->
     get_stock_analysis w symbol cost_price = None) /\
  (forall res,
     get_stock_analysis w symbol cost_price = Some res ->
     exists df, yf_download w symbol "1y" "1d" = Ok df /\ (2 <= Pd.len df)%nat).
Proof.
  split.
  - intros df Hdl Hone.
    destruct (get_stock_analysis w symbol cost_price) as [res|] eqn:H;
      [|reflexivity].
    apply analysis_rows in H as (df' & Hdl' & _ & _ & Hlen).
    assert (df' = df) as -> by congruence. lia.
  - intros res H. apply analysis_rows in H as (df & Hdl & _ & _ & Hlen). eauto.
Qed.

(** A non-empty fetch of one bar. *)
Lemma one_bar_series_is_unavailable_witness :
  Pd.empty Fixture.one_bar = false /\
  get_stock_analysis Fixture.scenario1 "ONEBAR" (PInt 500) = None.
Proof.
  split; [vm_compute; reflexivity|].
  apply (proj1 (one_bar_series_is_unavailable Fixture.scenario1 "ONEBAR" (PInt 500))
           Fixture.one_bar); reflexivity.
Defined.

(** C6. An empty fetch, and any exception inside the analyzer, give
    [None]: the analyzer returns either [None] or a dictionary with every
    field computed, and never faults.  The loop shows nothing for such a
    row and goes on: the page is the one the other rows alone produce, and
    the card of a later row that is analyzed follows what the rows before
    it showed, beginning with its title, its tag and its price tile. *)
Theorem failed_symbol_is_skipped w :
  (forall symbol cost_price df,
     yf_download w symbol "1y" "1d" = Ok df -> Pd.empty df = true ->
     get_stock_analysis w symbol cost_price = None) /\
  (forall symbol cost_price e,
     analysis_body w symbol cost_price = Raise e ->
     get_stock_analysis w symbol cost_price = None) /\
  (forall symbol cost_price e,
     yf_download w symbol "1y" "1d" = Raise e \/ yf_info w symbol = Raise e ->
     get_stock_analysis w symbol cost_price = None) /\
  (forall symbol cost_price,
     get_stock_analysis w symbol cost_price = None \/
     exists res, get_stock_analysis w symbol cost_price = Some res /\
                 analyzed w symbol cost_price res) /\
  (forall t row symbol,
     analyze_row w t row = Ok (symbol, None) ->
     watch_row w t row = Render [] (Ok tt) /\
     forall before after,
       for_each (watch_row w t) (before ++ row :: after) =
       for_each (watch_row w t) (before ++ after)) /\
  (forall t before row symbol between later symbol' res' rest,
     analyze_row w t row = Ok (symbol, None) ->
     analyze_row w t later = Ok (symbol', Some res') ->
     outcome (for_each (watch_row w t) (before ++ between)) = Ok tt ->
     exists colour tail,
       shown (for_each (watch_row w t)
                (before ++ row :: between ++ later :: rest)) =
         (shown (for_each (watch_row w t) (before ++ between)) ++
          st_markdown c_title
            [Lit "### "; Lit symbol'; Lit " - ";
             Shown (dict_get (res_info res') "shortName" (PStr ""))]
          :: st_markdown c_tag
               [Lit ":"; Lit colour; Lit "[**"; Lit (res_trend res'); Lit "**]"]
          :: st_metric m1 [Lit "當前股價"] [Fixed 2 (res_price res')] None
          :: tail)%list).
Proof.
  assert (Hskip : forall t row symbol,
            analyze_row w t row = Ok (symbol, None) ->
            watch_row w t row = Render [] (Ok tt) /\
            forall before after,
              for_each (watch_row w t) (before ++ row :: after) =
              for_each (watch_row w t) (before ++ after)).
  { intros t row symbol H.
    assert (Hrow : watch_row w t row = Render [] (Ok tt))
      by (unfold watch_row; rewrite H; reflexivity).
    split; [exact Hrow|]. intros before after.
    rewrite !for_each_app. cbn [for_each]. rewrite Hrow.
    change (Render [] (Ok tt)) with (mret tt : Page unit).
    rewrite page_bind_ret. reflexivity. }
  split; [|split; [|split; [|split; [|split]]]].
  - intros symbol cost_price df Hdl Hempty.
    unfold get_stock_analysis, analysis_body. rewrite Hdl. cbn [mbind Exc_bind].
    rewrite Hempty. reflexivity.
  - intros symbol cost_price e H. unfold get_stock_analysis. rewrite H. reflexivity.
  - intros symbol cost_price e H.
    destruct (get_stock_analysis w symbol cost_price) as [res|] eqn:Hres;
      [|reflexivity].
    destruct (analysis_inv _ _ _ _ Hres) as
      (df0 & c1 & c2 & c3 & c4 & curr & prev & atr14 & closes & ma20 & A).
    destruct A as (Hdl & _ & _ & _ & _ & _ & _ & _ & _ & Hinfo & _).
    destruct H as [H|H]; congruence.
  - intros symbol cost_price.
    destruct (get_stock_analysis w symbol cost_price) as [res|] eqn:Hres;
      [right|left; reflexivity].
    exists res. split; [reflexivity|]. apply analysis_inv. exact Hres.
  - exact Hskip.
  - intros t before row symbol between later symbol' res' rest Hrow Hlater Hok.
    rewrite (proj2 (Hskip _ _ _ Hrow)), app_assoc, for_each_app.
    rewrite (shown_bind_Ok _ _ tt Hok). cbn [for_each].
    destruct (shown_bind_prefix (watch_row w t later)
                (fun _ => for_each (watch_row w t) rest)) as (tail & ->).
    assert (Hcard : shown (watch_row w t later) = shown (render_card w symbol' res'))
      by (unfold watch_row; rewrite Hlater; reflexivity).
    rewrite Hcard.
    destruct (render_card_head w symbol' res') as (card_rest & out & ->).
    cbn [shown app]. eauto.
Qed.

(** The watchlist of the fixture: its second row fetches nothing, and the
    card of its third row follows the card of the first. *)
Lemma failed_symbol_is_skipped_witness :
  analyze_row Fixture.scenario1 Fixture.watchlist Fixture.row_empty
    = Ok ("EMPTY", None) /\
  for_each (watch_row Fixture.scenario1 Fixture.watchlist)
    ([Fixture.row_2330] ++ Fixture.row_empty :: [Fixture.row_2317]) =
  for_each (watch_row Fixture.scenario1 Fixture.watchlist)
    ([Fixture.row_2330] ++ [Fixture.row_2317]) /\
  exists colour tail,
    shown (for_each (watch_row Fixture.scenario1 Fixture.watchlist)
             [Fixture.row_2330; Fixture.row_empty; Fixture.row_2317]) =
      (shown (for_each (watch_row Fixture.scenario1 Fixture.watchlist)
                [Fixture.row_2330]) ++
       st_markdown c_title
         [Lit "### "; Lit "2317.TW"; Lit " - "; Shown (PStr "TSMC")]
       :: st_markdown c_tag
            [Lit ":"; Lit colour; Lit "[**"; Lit "🔥 多頭強勢"; Lit "**]"]
       :: st_metric m1 [Lit "當前股價"] [Fixed 2 550] None
       :: tail)%list.
Proof.
  assert (H : analyze_row Fixture.scenario1 Fixture.watchlist Fixture.row_empty
              = Ok ("EMPTY", None)) by (vm_compute; reflexivity).
  destruct (failed_symbol_is_skipped Fixture.scenario1)
    as (_ & _ & _ & _ & Hskip & Hlater).
  split; [exact H|]. split.
  - apply (proj2 (Hskip Fixture.watchlist Fixture.row_empty "EMPTY" H)).
  - destruct (analyze_row Fixture.scenario1 Fixture.watchlist Fixture.row_2317)
      as [e|[symbol' [res'|]]] eqn:H'; try (vm_compute in H'; discriminate).
    assert (symbol' = "2317.TW") as ->.
    { assert (E : match analyze_row Fixture.scenario1 Fixture.watchlist
                          Fixture.row_2317
                  with Ok (s, _) => s = "2317.TW" | _ => True end)
        by (vm_compute; reflexivity).
      rewrite H' in E. exact E. }
    assert (Hok : outcome (for_each (watch_row Fixture.scenario1 Fixture.watchlist)
                             ([Fixture.row_2330] ++ [])) = Ok tt)
      by (vm_compute; reflexivity).
    destruct (Hlater Fixture.watchlist [Fixture.row_2330] Fixture.row_empty "EMPTY"
                [] Fixture.row_2317 "2317.TW" res' [] H H' Hok)
      as (colour & tail & E).
    assert (Hname : dict_get (res_info res') "shortName" (PStr "") = PStr "TSMC")
      by from_run H'.
    assert (Htrend : res_trend res' = "🔥 多頭強勢") by from_run H'.
    assert (Hprice : res_price res' = 550%float) by from_run H'.
    rewrite Hname, Htrend, Hprice in E.
    exists colour, tail. exact E.
Defined.

(** ** The watchlist loader *)

(** C7. When the read of the spreadsheet fails, the loader returns the
    empty table with the columns Ticker, Cost and Note and shows one error
    box, and the page ends normally on its empty-list warning.  What the
    loader returns is kept with the time of the call and handed back,
    without a read, to every call made less than 600 seconds later,
    whatever the sheet holds by then; from 600 seconds on it is read
    again. *)
Theorem loader_degrades_and_memoizes w :
  (forall e,
     gsheets_read w SHEET_URL = Raise e ->
     load_data_from_sheets_body w =
       Render [st_error [Lit "雲端資料讀取失敗，請檢查網址與權限。錯誤: "; Cause e]]
              (Ok (mkSheet ["Ticker"; "Cost"; "Note"] [])) /\
     forall now,
       outcome (page w now None).1 = Ok tt /\
       exists notice warning,
         shown (page w now None).1 =
           [st_title "📈 台股 AI 雲端全方位決策系統"; st_error notice; st_warning warning]) /\
  (forall data now,
     gsheets_read w SHEET_URL = Ok data ->
     load_data_from_sheets w now None =
       (Render [] (Ok data), Some (mkEntry now data []))) /\
  (forall now c,
     exists entry,
       load_data_from_sheets w now c =
         (Render (replay entry) (Ok (stored entry)), Some entry)) /\
  (forall entry later,
     later < stored_at entry + 600 ->
     load_data_from_sheets w later (Some entry) =
       (Render (replay entry) (Ok (stored entry)), Some entry)) /\
  (forall entry later,
     stored_at entry + 600 <= later ->
     load_data_from_sheets w later (Some entry) =
     load_data_from_sheets w later None) /\
  (forall w0 data now later,
     gsheets_read w0 SHEET_URL = Ok data ->
     later < now + 600 ->
     (load_data_from_sheets w later (load_data_from_sheets w0 now None).2).1 =
       Render [] (Ok data)).
Proof.
  assert (Hhit : forall entry later,
            later < stored_at entry + 600 ->
            load_data_from_sheets w later (Some entry) =
              (Render (replay entry) (Ok (stored entry)), Some entry)).
  { intros entry later Hlt. unfold load_data_from_sheets, cache_data, fresh.
    apply Z.ltb_lt in Hlt. rewrite Hlt. reflexivity. }
  assert (Hmiss : forall now,
            exists entry,
              load_data_from_sheets w now None =
                (Render (replay entry) (Ok (stored entry)), Some entry)).
  { intros now. unfold load_data_from_sheets, cache_data, fresh,
      load_data_from_sheets_body.
    destruct (gsheets_read w SHEET_URL) as [e|data]; eexists (mkEntry _ _ _);
      reflexivity. }
  assert (Hexp : forall entry later,
            stored_at entry + 600 <= later ->
            load_data_from_sheets w later (Some entry) =
            load_data_from_sheets w later None).
  { intros entry later Hle. unfold load_data_from_sheets, cache_data, fresh.
    apply Z.ltb_ge in Hle. rewrite Hle. reflexivity. }
  split; [|split; [|split; [|split; [|split]]]].
  - intros e He. unfold load_data_from_sheets_body. rewrite He.
    split; [reflexivity|]. intros now.
    unfold page, load_data_from_sheets, cache_data, fresh,
      load_data_from_sheets_body. rewrite He. split; [reflexivity|].
    eexists _, _. reflexivity.
  - intros data now Hd. unfold load_data_from_sheets, cache_data, fresh,
      load_data_from_sheets_body. rewrite Hd. reflexivity.
  - intros now [entry|]; [|apply Hmiss].
    destruct (Z.lt_ge_cases now (stored_at entry + 600)) as [Hlt|Hge].
    + exists entry. apply Hhit. exact Hlt.
    + rewrite (Hexp _ _ Hge). apply Hmiss.
  - exact Hhit.
  - exact Hexp.
  - intros w0 data now later Hd Hlt.
    assert (E : load_data_from_sheets w0 now None =
                (Render [] (Ok data), Some (mkEntry now data []))).
    { unfold load_data_from_sheets, cache_data, fresh,
        load_data_from_sheets_body. rewrite Hd. reflexivity. }
    rewrite E. cbn [snd]. rewrite Hhit; [reflexivity|exact Hlt].
Qed.

(** ** Missing fundamentals *)

Lemma float_finite_cases (x : float) :
  is_finite x = true ->
  (exists s, Prim2SF x = S754_zero s) \/ (exists s m e, Prim2SF x = S754_finite s m e).
Proof.
  unfold is_finite, is_nan, is_infinity.
  rewrite !FloatAxioms.eqb_spec, abs_spec.
  change (Prim2SF infinity) with (S754_infinity false).
  destruct (Prim2SF x) as [s|s| |s m e]; cbn; try discriminate; eauto.
  destruct s; discriminate.
Qed.

(** Zero times a finite value is a zero. *)
Lemma float_zero_mul_finite (x : float) :
  is_finite x = true -> PrimFloat.eqb (PrimFloat.mul 0 x) 0 = true.
Proof.
  intros H. rewrite FloatAxioms.eqb_spec, mul_spec.
  change (Prim2SF 0) with (S754_zero false).
  destruct (float_finite_cases x H) as [[s ->]|(s & m & e & ->)]; reflexivity.
Qed.

(** With the earnings missing, the product with a finite multiple is zero. *)
Lemma zero_times_finite (pe : PyVal) :
  finite_number pe ->
  exists v, py_mul (PInt 0) pe = Ok v /\ renders_as_zero v.
Proof.
  unfold renders_as_zero. destruct pe as [|b|n|x|s]; cbn [finite_number];
    intros H; try contradiction.
  - exists (PInt 0). split; [destruct b; reflexivity|].
    exists 0%float. split; reflexivity.
  - exists (PInt 0). split; [reflexivity|].
    exists 0%float. split; reflexivity.
  - exists (PFloat (PrimFloat.mul 0 x)). split; [reflexivity|].
    exists (PrimFloat.mul 0 x). split; [reflexivity|].
    apply float_zero_mul_finite. exact H.
Qed.

Lemma valuation_pb info industry :
  dict_get info "industry" (PStr "") = PStr industry ->
  names_pb_sector industry ->
  valuation info =
    v ← py_mul (dict_get info "bookValue" (PInt 0)) (PFloat pb_multiple);
    Ok (v, "P/B").
Proof.
  intros Hind Hpb. unfold valuation. rewrite Hind, py_any_in_str.
  apply names_pb_sector_spec in Hpb. rewrite Hpb. reflexivity.
Qed.

Lemma valuation_pe info industry :
  dict_get info "industry" (PStr "") = PStr industry ->
  ~ names_pb_sector industry ->
  valuation info =
    v ← py_mul (dict_get info "trailingEps" (PInt 0))
               (dict_get info "trailingPE" (PInt 15));
    Ok (v, "P/E").
Proof.
  intros Hind Hn. unfold valuation. rewrite Hind, py_any_in_str.
  destruct (existsb (fun x => str_contains x industry) pb_keywords) eqn:E;
    [|reflexivity].
  apply names_pb_sector_spec in E. contradiction.
Qed.

(** The analyzer consults [info] for the valuation alone: a run that
    returned a dictionary returns one for any other [info] that can be
    valued. *)
Lemma analysis_with_info w symbol cost_price res info v mt :
  get_stock_analysis w symbol cost_price = Some res ->
  valuation info = Ok (v, mt) ->
  get_stock_analysis (with_info w info) symbol cost_price
    = Some (revalued res info v mt).
Proof.
  intros H Hval.
  destruct (analysis_inv _ _ _ _ H) as
    (df0 & c1 & c2 & c3 & c4 & curr & prev & atr14 & closes & ma20 & A).
  destruct A as (Hdl & Hne & Hc1 & Hc2 & Hc3 & Hc4 & Hdf & Hcurr & Hprev & Hinfo &
                 _ & Hclose & Hatr & Hstop & Hcloses & Hma & Htrend & Hk & Hrsi &
                 Hmh & Hroi).
  apply analysis_intro.
  exists df0, c1, c2, c3, c4, curr, prev, atr14, closes, ma20.
  unfold with_info, revalued.
  cbn [yf_download yf_info ta rolling_mean res_df res_info res_price
       res_intrinsic res_model_type res_k res_rsi res_macd_h res_stop_loss
       res_trend res_roi].
  repeat (split; [first [assumption | reflexivity]|]). exact Hroi.
Qed.

(** C9, as the analyzer has it.  A missing bookValue (Price-to-Book) or
    trailingEps (Price-to-Earnings) counts as 0.  Under Price-to-Book the
    intrinsic value is then 0 * 1.3 = 0.0.  Under Price-to-Earnings it is
    0 * trailingPE, which is zero when trailingPE is absent (then 15 stands
    for it, the only field with a default other than 0) or a finite
    number.  In these cases the value is formatted for its tile, and a run
    that returned a dictionary still returns one when the field is left
    out. *)
Theorem missing_fundamental_counts_as_zero :
  (forall info industry,
     dict_get info "industry" (PStr "") = PStr industry ->
     (names_pb_sector industry -> info !! "bookValue" = None ->
        valuation info = Ok (PFloat 0, "P/B") /\ renders_as_zero (PFloat 0)) /\
     (~ names_pb_sector industry -> info !! "trailingEps" = None ->
        valuation info =
          (v ← py_mul (PInt 0) (dict_get info "trailingPE" (PInt 15)); Ok (v, "P/E")) /\
        (absent_or_finite (info !! "trailingPE") ->
           exists v, valuation info = Ok (v, "P/E") /\ renders_as_zero v)) /\
     (~ names_pb_sector industry -> info !! "trailingPE" = None ->
        valuation info =
          (v ← py_mul (dict_get info "trailingEps" (PInt 0)) (PInt 15);
           Ok (v, "P/E")))) /\
  (forall w symbol cost_price res industry,
     get_stock_analysis w symbol cost_price = Some res ->
     dict_get (res_info res) "industry" (PStr "") = PStr industry ->
     (names_pb_sector industry ->
        exists res',
          get_stock_analysis (with_info w (delete "bookValue" (res_info res)))
            symbol cost_price = Some res' /\
          res_model_type res' = "P/B" /\ res_intrinsic res' = PFloat 0) /\
     (~ names_pb_sector industry ->
        absent_or_finite (res_info res !! "trailingPE") ->
        exists res',
          get_stock_analysis (with_info w (delete "trailingEps" (res_info res)))
            symbol cost_price = Some res' /\
          res_model_type res' = "P/E" /\ renders_as_zero (res_intrinsic res'))).
Proof.
  assert (Hpb : forall info industry,
            dict_get info "industry" (PStr "") = PStr industry ->
            names_pb_sector industry -> info !! "bookValue" = None ->
            valuation info = Ok (PFloat 0, "P/B")).
  { intros info industry Hind Hn Hbook.
    rewrite (valuation_pb _ _ Hind Hn). unfold dict_get. rewrite Hbook. reflexivity. }
  assert (Hpe : forall info industry,
            dict_get info "industry" (PStr "") = PStr industry ->
            ~ names_pb_sector industry -> info !! "trailingEps" = None ->
            absent_or_finite (info !! "trailingPE") ->
            exists v, valuation info = Ok (v, "P/E") /\ renders_as_zero v).
  { intros info industry Hind Hn Heps Hfin.
    rewrite (valuation_pe _ _ Hind Hn). unfold dict_get at 1. rewrite Heps.
    cbn [from_option id].
    assert (Hnum : finite_number (dict_get info "trailingPE" (PInt 15))).
    { unfold dict_get. destruct (info !! "trailingPE"); [exact Hfin|exact I]. }
    destruct (zero_times_finite _ Hnum) as (v & Hv & Hz).
    exists v. rewrite Hv. split; [reflexivity|exact Hz]. }
  split.
  - intros info industry Hind. split; [|split].
    + intros Hn Hbook. split; [eapply Hpb; eassumption|].
      exists 0%float. split; reflexivity.
    + intros Hn Heps. split; [|eapply Hpe; eassumption].
      rewrite (valuation_pe _ _ Hind Hn). unfold dict_get at 1. rewrite Heps.
      reflexivity.
    + intros Hn Hpe0. rewrite (valuation_pe _ _ Hind Hn).
      unfold dict_get at 2. rewrite Hpe0. reflexivity.
  - intros w symbol cost_price res industry H Hind. split.
    + intros Hn.
      assert (Hval : valuation (delete "bookValue" (res_info res))
                     = Ok (PFloat 0, "P/B")).
      { apply (Hpb _ industry); [|exact Hn|apply lookup_delete_eq].
        unfold dict_get in *. rewrite lookup_delete_ne; [exact Hind|discriminate]. }
      eexists. split; [exact (analysis_with_info _ _ _ _ _ _ _ H Hval)|].
      split; reflexivity.
    + intros Hn Hfin.
      destruct (Hpe (delete "trailingEps" (res_info res)) industry)
        as (v & Hval & Hz); [| exact Hn | apply lookup_delete_eq | |].
      * unfold dict_get in *. rewrite lookup_delete_ne; [exact Hind|discriminate].
      * rewrite lookup_delete_ne; [exact Hfin|discriminate].
      * eexists. split; [exact (analysis_with_info _ _ _ _ _ _ _ H Hval)|].
        split; [reflexivity|exact Hz].
Qed.

(** Scenario 3 without the book value: the bank is valued at 0.0. *)
Lemma missing_fundamental_counts_as_zero_witness :
  exists res',
    get_stock_analysis
      (with_info Fixture.scenario3 (delete "bookValue" Fixture.regional_bank))
      "XYZ" PNone = Some res' /\
    res_model_type res' = "P/B" /\ res_intrinsic res' = PFloat 0.
Proof.
  destruct (get_stock_analysis Fixture.scenario3 "XYZ" PNone) as [res|] eqn:H;
    [|vm_compute in H; discriminate].
  assert (Hinfo : res_info res = Fixture.regional_bank).
  { destruct (analysis_inv _ _ _ _ H) as
      (df0 & c1 & c2 & c3 & c4 & curr & prev & atr14 & closes & ma20 & A).
    destruct A as (_ & _ & _ & _ & _ & _ & _ & _ & _ & Hi & _).
    change (Ok Fixture.regional_bank = Ok (res_info res)) in Hi. congruence. }
  destruct (proj2 missing_fundamental_counts_as_zero
              Fixture.scenario3 "XYZ" PNone res "Regional Banks" H) as [Hpb _].
  { rewrite Hinfo. vm_compute. reflexivity. }
  rewrite Hinfo in Hpb. apply Hpb.
  exists "Bank". split; [unfold pb_keywords; repeat constructor|].
  exists "Regional ", "s". reflexivity.
Defined.

(** The claim as stated fails when trailingPE is there and is not finite:
    with no trailingEps and an infinite trailingPE the analyzer returns a
    dictionary under Price-to-Earnings whose intrinsic value is
    0 * inf = NaN, not 0. *)
Lemma missing_eps_counterexample :
  Fixture.no_eps_inf_pe !! "trailingEps" = None /\
  valuation Fixture.no_eps_inf_pe = Ok (PFloat nan, "P/E") /\
  ~ renders_as_zero (PFloat nan) /\
  exists res,
    get_stock_analysis Fixture.lossmaker "LOSS" PNone = Some res /\
    res_model_type res = "P/E" /\
    res_intrinsic res = PFloat nan.
Proof.
  split; [vm_compute; reflexivity|]. split; [vm_compute; reflexivity|]. split.
  - intros (z & Hz & Hzero). cbn [format_fixed] in Hz. injection Hz as <-.
    vm_compute in Hzero. discriminate.
  - destruct (get_stock_analysis Fixture.lossmaker "LOSS" PNone) as [res|] eqn:H;
      [|vm_compute in H; discriminate].
    exists res. split; [reflexivity|]. split; from_run H.
Qed.

(** ** The scenarios of the specification, run *)

(** Scenario 1: close 550, ATR 10, mean 540, bought at 500. *)
Example scenario1_analysis :
  option_map (fun res => (res_trend res, res_stop_loss res, res_roi res))
    (get_stock_analysis Fixture.scenario1 "2330.TW" (PInt 500))
  = Some (TREND_STRONG, 530%float, Some 10%float).
Proof. vm_compute. reflexivity. Qed.

Example scenario1_no_banner :
  option_map (fun res =>
      existsb (fun x => match x with st_error _ => true | _ => false end)
        (shown (render_card Fixture.scenario1 "2330.TW" res)))
    (get_stock_analysis Fixture.scenario1 "2330.TW" (PInt 500))
  = Some false.
Proof. vm_compute. reflexivity. Qed.

(** Scenario 2: close 525 under the stop 530. *)
Example scenario2_analysis :
  option_map (fun res => (res_stop_loss res, res_roi res))
    (get_stock_analysis Fixture.scenario2 "2330.TW" (PInt 500))
  = Some (530%float, Some 5%float).
Proof. vm_compute. reflexivity. Qed.

(** Scenario 3: a regional bank with book value 20 and no cost basis. *)
Example scenario3_analysis :
  option_map (fun res => (res_model_type res, res_intrinsic res, res_roi res))
    (get_stock_analysis Fixture.scenario3 "XYZ" PNone)
  = Some ("P/B", PFloat 26, None).
Proof. vm_compute. reflexivity. Qed.

(** Scenario 4: the fetch of the second row is empty; the page shows the
    cards of the first and the third row and ends normally. *)
Example scenario4_page :
  let p := (page Fixture.scenario1 0 None).1 in
  outcome p = Ok tt /\
  List.filter is_metric (shown p) =
  List.filter is_metric
    (shown (for_each (watch_row Fixture.scenario1 Fixture.watchlist)
              [Fixture.row_2330; Fixture.row_2317])) /\
  length (List.filter is_metric (shown p)) = 8%nat.
Proof. vm_compute. repeat split. Qed.

(** The memo at work: a call 599 seconds after the first gets the stored
    table although the sheet cannot be read any more; at 600 seconds the
    loader reads again and degrades. *)
Example memo_window :
  let down := Fixture.world 550 10 540 0.5 Fixture.tsmc
                (Raise (ProviderError "quota exceeded")) in
  let first := load_data_from_sheets Fixture.scenario1 1000 None in
  outcome (load_data_from_sheets down 1599 first.2).1 = Ok Fixture.watchlist /\
  sheet_empty
    match outcome (load_data_from_sheets down 1600 first.2).1 with
    | Ok t => t
    | Raise _ => Fixture.watchlist
    end = true.
Proof. vm_compute. split; reflexivity. Qed.

(** ** Inputs off the beaten track *)

(** The keywords are matched as written: lower-case "bank" is no match. *)
Example keyword_match_is_case_sensitive :
  valuation {[ "industry" := PStr "Investment banking"; "trailingEps" := PFloat 2;
               "bookValue" := PFloat 9 ]}
  = Ok (PFloat 30, "P/E").
Proof. vm_compute. reflexivity. Qed.

(** No earnings and no multiple on record: 0 * 15, the integer 0. *)
Example no_eps_no_pe : valuation Fixture.no_eps = Ok (PInt 0, "P/E").
Proof. vm_compute. reflexivity. Qed.

(** A multiple given as text: 0 copies of the text, which the value tile
    cannot format. *)
Example no_eps_text_multiple :
  valuation Fixture.no_eps_text_pe = Ok (PStr "", "P/E") /\
  format_fixed 2 (PStr "") = Raise ValueError.
Proof. split; vm_compute; reflexivity. Qed.

(** An [industry] entry that is [None] cannot be searched. *)
Example industry_none :
  valuation {[ "industry" := PNone; "trailingEps" := PFloat 2 ]} = Raise TypeError.
Proof. vm_compute. reflexivity. Qed.

(** The histogram is read under the name [MACDH_12_26_9]; a frame that
    carries it as [MACDh_12_26_9] has no such column. *)
Example histogram_name_is_case_sensitive :
  get_stock_analysis Fixture.lower_case_histogram "2330.TW" (PInt 500) = None.
Proof. vm_compute. reflexivity. Qed.

(** A cost cell that holds text stops the page at the comparison with 0. *)
Example text_cost_faults :
  analyze_row Fixture.scenario1 Fixture.watchlist
    {[ "Ticker" := PStr "2330.TW"; "Cost" := PStr "500" ]}
  = Raise TypeError.
Proof. vm_compute. reflexivity. Qed.

(** * Further properties of the script *)

(** ** What the analyzer needs from the frame *)

Lemma columns_append_is_Some df cols k :
  is_Some (Pd.columns (Pd.append df cols) !! k) <->
  is_Some (Pd.columns df !! k) \/ k ∈ names cols.
Proof.
  unfold Pd.append, names. revert df.
  induction cols as [|[n c] cols IH]; intros df; cbn [fold_left fmap list_fmap].
  - rewrite elem_of_nil. tauto.
  - rewrite IH, elem_of_cons. cbn [Pd.assign Pd.columns fst snd].
    rewrite lookup_insert_is_Some.
    destruct (decide (n = k)) as [->|Hne]; [tauto|].
    split; [intros [[?|[_ ?]]|?]|intros [?|[?|?]]]; try tauto; try congruence.

Qed.

Lemma columns_append_other df cols k :
  k ∉ names cols ->
  Pd.columns (Pd.append df cols) !! k = Pd.columns df !! k.
Proof.
  unfold Pd.append, names. revert df.
  induction cols as [|[n c] cols IH]; intros df Hk; cbn [fold_left]; [reflexivity|].
  cbn [fmap list_fmap fst] in Hk. apply not_elem_of_cons in Hk as [Hne Hk].
  rewrite (IH _ Hk). cbn [Pd.assign Pd.columns fst snd].
  apply lookup_insert_ne. congruence.
Qed.

Lemma iloc_last_lookup df curr key :
  Pd.iloc df (-1) = Ok curr ->
  curr !! key = (fun col => nth (Pd.len df - 1) col nan) <$> Pd.columns df !! key.
Proof.
  unfold Pd.iloc. intros H. apply exc_bind_Ok in H as (j & Hj & [= <-]).
  rewrite lookup_fmap. unfold Pd.position in Hj. cbn [Z.ltb Z.compare] in Hj.
  destruct ((0 <=? Z.of_nat (Pd.len df) + -1) && _) eqn:Hc; [|discriminate].
  injection Hj as <-. apply andb_true_iff in Hc as [H0 _]. apply Z.leb_le in H0.
  replace (Z.to_nat (Z.of_nat (Pd.len df) + -1)) with (Pd.len df - 1)%nat by lia.
  reflexivity.
Qed.

Lemma getitem_is_Some (row : gmap string float) key x :
  Pd.getitem row key = Ok x -> row !! key = Some x.
Proof. unfold Pd.getitem. destruct (row !! key); congruence. Qed.

(** X1. A dictionary is returned only when each of Close, ATRr_14,
    STOCHk_9_3_3, RSI_14 and MACDH_12_26_9 is a column of the fetched frame
    or among the columns an indicator call returned; when one of them is
    neither, the symbol is unavailable. *)
Theorem snapshot_columns_required w symbol cost_price :
  (forall res,
     get_stock_analysis w symbol cost_price = Some res ->
     exists df0 c1 c2 c3 c4,
       yf_download w symbol "1y" "1d" = Ok df0 /\
       ta w (stoch "High" "Low" "Close" 9 3) df0 = Ok c1 /\
       ta w (macd "Close" 12 26 9) (Pd.append df0 c1) = Ok c2 /\
       ta w (rsi "Close" 14) (Pd.append (Pd.append df0 c1) c2) = Ok c3 /\
       ta w (atr "High" "Low" "Close" 14)
          (Pd.append (Pd.append (Pd.append df0 c1) c2) c3) = Ok c4 /\
       forall key, key ∈ snapshot_columns ->
         is_Some (Pd.columns (res_df res) !! key) /\
         (is_Some (Pd.columns df0 !! key) \/
          key ∈ (names c1 ++ names c2 ++ names c3 ++ names c4)%list)) /\
  (forall df0 c1 c2 c3 c4 key,
     yf_download w symbol "1y" "1d" = Ok df0 ->
     ta w (stoch "High" "Low" "Close" 9 3) df0 = Ok c1 ->
     ta w (macd "Close" 12 26 9) (Pd.append df0 c1) = Ok c2 ->
     ta w (rsi "Close" 14) (Pd.append (Pd.append df0 c1) c2) = Ok c3 ->
     ta w (atr "High" "Low" "Close" 14)
        (Pd.append (Pd.append (Pd.append df0 c1) c2) c3) = Ok c4 ->
     key ∈ snapshot_columns ->
     Pd.columns df0 !! key = None ->
     key ∉ (names c1 ++ names c2 ++ names c3 ++ names c4)%list ->
     get_stock_analysis w symbol cost_price = None).
Proof.
  assert (Hall : forall res,
     get_stock_analysis w symbol cost_price = Some res ->
     exists df0 c1 c2 c3 c4,
       yf_download w symbol "1y" "1d" = Ok df0 /\
       ta w (stoch "High" "Low" "Close" 9 3) df0 = Ok c1 /\
       ta w (macd "Close" 12 26 9) (Pd.append df0 c1) = Ok c2 /\
       ta w (rsi "Close" 14) (Pd.append (Pd.append df0 c1) c2) = Ok c3 /\
       ta w (atr "High" "Low" "Close" 14)
          (Pd.append (Pd.append (Pd.append df0 c1) c2) c3) = Ok c4 /\
       forall key, key ∈ snapshot_columns ->
         is_Some (Pd.columns (res_df res) !! key) /\
         (is_Some (Pd.columns df0 !! key) \/
          key ∈ (names c1 ++ names c2 ++ names c3 ++ names c4)%list)).
  { intros res H.
    destruct (analysis_inv _ _ _ _ H) as
      (df0 & c1 & c2 & c3 & c4 & curr & prev & atr14 & closes & ma20 & A).
    destruct A as (Hdl & _ & Hc1 & Hc2 & Hc3 & Hc4 & Hdf & Hcurr & _ & _ & _ &
                   Hclose & Hatr & _ & _ & _ & _ & Hk & Hrsi & Hmh & _).
    exists df0, c1, c2, c3, c4. repeat (split; [assumption|]).
    assert (Hin : forall key x, Pd.getitem curr key = Ok x ->
              is_Some (Pd.columns (res_df res) !! key)).
    { intros key x Hx. apply getitem_is_Some in Hx.
      rewrite (iloc_last_lookup _ _ key Hcurr) in Hx.
      destruct (Pd.columns (res_df res) !! key); [eauto|discriminate]. }
    intros key Hkey.
    assert (Hsome : is_Some (Pd.columns (res_df res) !! key)).
    { unfold snapshot_columns in Hkey.
      rewrite !elem_of_cons, elem_of_nil in Hkey.
      destruct Hkey as [->|[->|[->|[->|[->|[]]]]]]; eauto. }
    split; [exact Hsome|].
    rewrite Hdf, !columns_append_is_Some in Hsome.
    rewrite !elem_of_app. tauto. }
  split; [exact Hall|].
  intros df0 c1 c2 c3 c4 key Hdl Hc1 Hc2 Hc3 Hc4 Hkey Hnone Hnot.
  destruct (get_stock_analysis w symbol cost_price) as [res|] eqn:H; [|reflexivity].
  destruct (Hall res eq_refl) as (df0' & c1' & c2' & c3' & c4' & Hdl' & Hc1' & Hc2' &
                                  Hc3' & Hc4' & Hcols).
  assert (df0' = df0) as -> by congruence.
  assert (c1' = c1) as -> by congruence.
  assert (c2' = c2) as -> by congruence.
  assert (c3' = c3) as -> by congruence.
  assert (c4' = c4) as -> by congruence.
  destruct (Hcols key Hkey) as (_ & [Hs|Hin]); [|contradiction].
  rewrite Hnone in Hs. destruct Hs; discriminate.
Qed.

(** The histogram under the name [MACDh_12_26_9]: no dictionary. *)
Lemma snapshot_columns_required_witness :
  get_stock_analysis Fixture.lower_case_histogram "2330.TW" (PInt 500) = None.
Proof.
  eapply (proj2 (snapshot_columns_required Fixture.lower_case_histogram
                   "2330.TW" (PInt 500))
            (Fixture.bars 550) _ _ _ _ "MACDH_12_26_9");
    try reflexivity.
  - unfold snapshot_columns. repeat constructor.
  - vm_compute. intros H. repeat (apply elem_of_cons in H as [H|H]; [discriminate|]).
    apply elem_of_nil in H. exact H.
Defined.

(** X2. Unless an indicator call returns a column named Close, the price
    of a returned dictionary is the last entry of the Close column of the
    fetched frame. *)
Theorem price_is_last_fetched_close w symbol cost_price res :
  get_stock_analysis w symbol cost_price = Some res ->
  exists df0 c1 c2 c3 c4,
    yf_download w symbol "1y" "1d" = Ok df0 /\
    ta w (stoch "High" "Low" "Close" 9 3) df0 = Ok c1 /\
    ta w (macd "Close" 12 26 9) (Pd.append df0 c1) = Ok c2 /\
    ta w (rsi "Close" 14) (Pd.append (Pd.append df0 c1) c2) = Ok c3 /\
    ta w (atr "High" "Low" "Close" 14)
       (Pd.append (Pd.append (Pd.append df0 c1) c2) c3) = Ok c4 /\
    ("Close" ∉ (names c1 ++ names c2 ++ names c3 ++ names c4)%list ->
     exists closes,
       Pd.columns df0 !! "Close" = Some closes /\
       res_price res = nth (Pd.len df0 - 1) closes nan).
Proof.
  intros H.
  destruct (analysis_inv _ _ _ _ H) as
    (df0 & c1 & c2 & c3 & c4 & curr & prev & atr14 & closes & ma20 & A).
  destruct A as (Hdl & _ & Hc1 & Hc2 & Hc3 & Hc4 & Hdf & Hcurr & _ & _ & _ &
                 Hclose & _).
  exists df0, c1, c2, c3, c4. repeat (split; [assumption|]).
  intros Hnot. rewrite !elem_of_app in Hnot.
  apply getitem_is_Some in Hclose.
  rewrite (iloc_last_lookup _ _ _ Hcurr) in Hclose.
  assert (Hlen : Pd.len (res_df res) = Pd.len df0)
    by (rewrite Hdf, !len_append; reflexivity).
  rewrite Hlen, Hdf in Hclose.
  rewrite !columns_append_other in Hclose by tauto.
  destruct (Pd.columns df0 !! "Close") as [col|]; [|discriminate].
  exists col. split; [reflexivity|]. cbn in Hclose. congruence.
Qed.

(** Scenario 1: the fetched closes are 541 and 550. *)
Lemma price_is_last_fetched_close_witness :
  exists res,
    get_stock_analysis Fixture.scenario1 "2330.TW" (PInt 500) = Some res /\
    res_price res = 550%float.
Proof.
  destruct (get_stock_analysis Fixture.scenario1 "2330.TW" (PInt 500))
    as [res|] eqn:H; [|vm_compute in H; discriminate].
  exists res. split; [reflexivity|].
  destruct (price_is_last_fetched_close _ _ _ _ H)
    as (df0 & c1 & c2 & c3 & c4 & Hdl & Hc1 & Hc2 & Hc3 & Hc4 & Hprice).
  change (Ok (Fixture.bars 550) = Ok df0) in Hdl. injection Hdl as <-.
  cbv [Fixture.scenario1 Fixture.world ta] in Hc1, Hc2, Hc3, Hc4.
  injection Hc1 as <-. injection Hc2 as <-. injection Hc3 as <-. injection Hc4 as <-.
  destruct Hprice as (closes & Hcl & ->).
  - vm_compute. intros Hin.
    repeat (apply elem_of_cons in Hin as [Hin|Hin]; [discriminate|]).
    apply elem_of_nil in Hin. exact Hin. 
  - vm_compute in Hcl. injection Hcl as <-. reflexivity.
Defined.

(** ** The status tag *)

Lemma SFcompare_refl s : s <> S754_nan -> SFcompare s s = Some Eq.
Proof.
  destruct s as [b|b| |b m e]; cbn; intros H; try reflexivity;
    try (destruct b; reflexivity); [contradiction|].
  rewrite Z.compare_refl, Pos.compare_cont_refl. destruct b; reflexivity.
Qed.

(** NaN is below nothing. *)
Lemma float_nan_not_ltb (x y : float) :
  is_nan x = true -> PrimFloat.ltb x y = false.
Proof.
  unfold is_nan. rewrite FloatAxioms.eqb_spec, ltb_spec. unfold SFeqb, SFltb.
  destruct (Prim2SF x) as [b|b| |b m e] eqn:E; try reflexivity;
    rewrite SFcompare_refl by discriminate; discriminate.
Qed.

(** X3. The tag of a card is green exactly when the latest close is
    strictly above the 20-day rolling mean, and orange otherwise; in
    particular it is orange when the mean is NaN.  The tag is shown even if
    the card faults further down. *)
Theorem tag_green_iff_close_above_ma20 w symbol cost_price res :
  get_stock_analysis w symbol cost_price = Some res ->
  exists closes ma20 colour,
    Pd.column (res_df res) "Close" = Ok closes /\
    Pd.at_position (rolling_mean w 20 closes) (-1) = Ok ma20 /\
    st_markdown c_tag
      [Lit ":"; Lit colour; Lit "[**"; Lit (res_trend res); Lit "**]"]
      ∈ shown (render_card w symbol res) /\
    (colour = "green" <-> PrimFloat.ltb ma20 (res_price res) = true) /\
    (colour <> "green" -> colour = "orange") /\
    (is_nan ma20 = true -> colour = "orange").
Proof.
  intros H.
  destruct (analysis_inv _ _ _ _ H) as
    (df0 & c1 & c2 & c3 & c4 & curr & prev & atr14 & closes & ma20 & A).
  destruct A as (_ & _ & _ & _ & _ & _ & _ & _ & _ & _ & _ & _ & _ & _ &
                 Hcloses & Hma & Htrend & _).
  destruct (render_card_head w symbol res) as (rest & out & Hcard).
  exists closes, ma20,
    (if str_contains "強勢" (res_trend res) then "green" else "orange").
  split; [exact Hcloses|]. split; [exact Hma|]. split.
  { rewrite Hcard. cbn [shown]. rewrite !elem_of_cons. auto. }
  rewrite Htrend.
  destruct (PrimFloat.ltb ma20 (res_price res)) eqn:Hlt.
  - change (str_contains "強勢" TREND_STRONG) with true.
    split; [tauto|]. split; [congruence|].
    intros Hnan. rewrite (float_nan_not_ltb _ _ Hnan) in Hlt. discriminate.
  - change (str_contains "強勢" TREND_WEAK) with false.
    split; [split; discriminate|]. split; reflexivity.
Qed.

(** Scenario 1 is green; with a NaN mean the same close is orange. *)
Lemma tag_green_iff_close_above_ma20_witness :
  exists res,
    get_stock_analysis Cases.short_history "2330.TW" (PInt 500) = Some res /\
    st_markdown c_tag
      [Lit ":"; Lit "orange"; Lit "[**"; Lit (res_trend res); Lit "**]"]
      ∈ shown (render_card Cases.short_history "2330.TW" res).
Proof.
  destruct (get_stock_analysis Cases.short_history "2330.TW" (PInt 500))
    as [res|] eqn:H; [|vm_compute in H; discriminate].
  exists res. split; [reflexivity|].
  destruct (tag_green_iff_close_above_ma20 _ _ _ _ H)
    as (closes & ma20 & colour & Hcl & Hma & Hin & _ & _ & Hnan).
  rewrite <- Hnan; [exact Hin|].
  change (Pd.at_position [nan; nan]%float (-1) = Ok ma20) in Hma.
  vm_compute in Hma. injection Hma as <-. reflexivity.
Defined.

(** ** When a card renders *)

Lemma format_fixed_numeric digits v x :
  to_float v = Ok x -> format_fixed digits v = Ok (Fixed digits x).
Proof.
  destruct v as [|b|n|y|s]; cbn [to_float format_fixed]; try discriminate;
    intros H; [rewrite H; reflexivity..|congruence].
Qed.

Lemma format_fixed_inv digits v frag :
  format_fixed digits v = Ok frag -> numeric v.
Proof.
  unfold numeric. destruct v as [|b|n|y|s]; cbn [to_float format_fixed];
    try discriminate; intros H; eauto;
    apply exc_bind_Ok in H as (x & Hx & _); eauto.
Qed.

Lemma column_is_Some df key :
  is_Some (Pd.columns df !! key) <-> exists col, Pd.column df key = Ok col.
Proof.
  unfold Pd.column. destruct (Pd.columns df !! key) as [col|].
  - split; eauto.
  - split; [intros [? ?]; discriminate|intros [? ?]; discriminate].
Qed.

Lemma render_card_intro w symbol res :
  numeric (res_intrinsic res) -> chartable (res_df res) ->
  outcome (render_card w symbol res) = Ok tt.
Proof.
  intros [x Hx] Hchart.
  assert (Hcol : forall key, key ∈ ["Open"; "High"; "Low"; "Close"] ->
            exists col, Pd.column (res_df res) key = Ok col)
    by (intros key Hkey; apply column_is_Some, Hchart, Hkey).
  destruct (Hcol "Open") as [open Ho]; [repeat constructor|].
  destruct (Hcol "High") as [high Hh]; [repeat constructor|].
  destruct (Hcol "Low") as [low Hl]; [repeat constructor|].
  destruct (Hcol "Close") as [close Hc]; [repeat constructor|].
  unfold render_card. rewrite for_each_emit.
  rewrite (format_fixed_numeric _ _ _ Hx), Ho, Hh, Hl, Hc.
  unfold np_lt. rewrite Hx.
  destruct (is_not_None (res_roi res) &&
            PrimFloat.ltb (res_price res) (res_stop_loss res));
    destruct (PrimFloat.ltb 0 (res_macd_h res)); reflexivity.
Qed.

(** X4. A card renders to its end exactly when the intrinsic value reads
    as a binary64 number (an int in range, a float or a bool, not text and
    not [None]) and the frame has the columns Open, High, Low and Close;
    otherwise the page stops inside the card. *)
Theorem card_renders_iff w symbol res :
  outcome (render_card w symbol res) = Ok tt <->
  numeric (res_intrinsic res) /\ chartable (res_df res).
Proof.
  split.
  - intros Hok. apply render_card_inv in Hok as
      (value & open & high & low & close & cheap & Hfmt & Ho & Hh & Hl & Hc & _).
    split; [eapply format_fixed_inv; exact Hfmt|].
    intros key Hkey. apply column_is_Some.
    rewrite !elem_of_cons, elem_of_nil in Hkey.
    destruct Hkey as [->|[->|[->|[->|[]]]]]; eauto.
  - intros [Hnum Hchart]. apply render_card_intro; assumption.
Qed.

Lemma py_mul_float_right v m r :
  py_mul v (PFloat m) = Ok r -> exists x, r = PFloat x.
Proof.
  destruct v as [|b|n|y|s]; cbn [py_mul]; try discriminate; intros H;
    apply exc_bind_Ok in H as (x & _ & [= <-]); eauto.
Qed.

(** X5. Under Price-to-Book the intrinsic value is always a float, so the
    card of a Price-to-Book dictionary renders to its end whenever the
    frame has Open, High and Low. *)
Theorem price_to_book_card_renders w symbol cost_price res :
  get_stock_analysis w symbol cost_price = Some res ->
  res_model_type res = "P/B" ->
  (exists x, res_intrinsic res = PFloat x) /\
  ((forall key, key ∈ ["Open"; "High"; "Low"] ->
      is_Some (Pd.columns (res_df res) !! key)) ->
   outcome (render_card w symbol res) = Ok tt).
Proof.
  intros H Hpb.
  destruct (analysis_inv _ _ _ _ H) as
    (df0 & c1 & c2 & c3 & c4 & curr & prev & atr14 & closes & ma20 & A).
  destruct A as (_ & _ & _ & _ & _ & _ & _ & _ & _ & _ & Hval & _ & _ & _ &
                 Hcloses & _).
  apply valuation_inv in Hval as (industry & _ & [(_ & _ & Hv)|(_ & Hmt & _)]);
    [|congruence].
  destruct (py_mul_float_right _ _ _ Hv) as [x Hx].
  split; [eauto|]. intros Hcols. apply render_card_intro.
  - rewrite Hx. exists x. reflexivity.
  - intros key Hkey. rewrite !elem_of_cons, elem_of_nil in Hkey.
    destruct Hkey as [->|[->|[->|[->|[]]]]];
      try solve [apply Hcols; repeat constructor].
    apply column_is_Some. eauto.
Qed.

(** Scenario 3, the regional bank. *)
Lemma price_to_book_card_renders_witness :
  exists res,
    get_stock_analysis Fixture.scenario3 "XYZ" PNone = Some res /\
    outcome (render_card Fixture.scenario3 "XYZ" res) = Ok tt.
Proof.
  destruct (get_stock_analysis Fixture.scenario3 "XYZ" PNone) as [res|] eqn:H;
    [|vm_compute in H; discriminate].
  exists res. split; [reflexivity|].
  apply (price_to_book_card_renders _ _ _ _ H); [from_run H|].
  intros key Hkey. rewrite !elem_of_cons, elem_of_nil in Hkey.
  assert (Hcol : forall k, is_not_None (Pd.columns (res_df res) !! k) = true ->
            is_Some (Pd.columns (res_df res) !! k))
    by (intros k; destruct (Pd.columns (res_df res) !! k); [eauto|discriminate]).
  destruct Hkey as [->|[->|[->|[]]]]; apply Hcol; from_run H.
Defined.

(** X6. When the intrinsic value does not read as a number (text, as a
    text multiple times an integer gives), the card stops at the value
    tile: the header, the tag and the price tile are shown, nothing after
    them, and the exception leaves the loop. *)
Theorem non_numeric_value_leaves_partial_card w symbol res :
  ~ numeric (res_intrinsic res) ->
  exists e,
    format_fixed 2 (res_intrinsic res) = Raise e /\
    render_card w symbol res =
      Render
        [ st_markdown c_title
            [Lit "### "; Lit symbol; Lit " - ";
             Shown (dict_get (res_info res) "shortName" (PStr ""))];
          st_markdown c_tag
            [Lit ":";
             Lit (if str_contains "強勢" (res_trend res) then "green" else "orange");
             Lit "[**"; Lit (res_trend res); Lit "**]"];
          st_metric m1 [Lit "當前股價"] [Fixed 2 (res_price res)] None ]
        (Raise e).
Proof.
  intros Hn.
  destruct (format_fixed 2 (res_intrinsic res)) as [e|frag] eqn:Hfmt.
  - exists e. split; [reflexivity|]. unfold render_card. rewrite Hfmt. reflexivity.
  - exfalso. apply Hn. eapply format_fixed_inv. exact Hfmt.
Qed.

(** No earnings and the multiple as the text [Infinity]: the intrinsic
    value is the empty text. *)
Lemma non_numeric_value_leaves_partial_card_witness :
  exists res,
    get_stock_analysis Cases.text_multiple "2330.TW" PNone = Some res /\
    length (shown (render_card Cases.text_multiple "2330.TW" res)) = 3%nat /\
    outcome (render_card Cases.text_multiple "2330.TW" res) = Raise ValueError.
Proof.
  destruct (get_stock_analysis Cases.text_multiple "2330.TW" PNone)
    as [res|] eqn:H; [|vm_compute in H; discriminate].
  exists res. split; [reflexivity|].
  assert (Hv : res_intrinsic res = PStr "") by from_run H.
  destruct (non_numeric_value_leaves_partial_card Cases.text_multiple "2330.TW" res)
    as (e & Hfmt & ->).
  - rewrite Hv. intros [x Hx]. discriminate.
  - rewrite Hv in Hfmt. injection Hfmt as <-. split; reflexivity.
Defined.

(** ** The chart *)

(** X7. On a card of an analyzed symbol that renders to its end, the
    chart is drawn over the index and the Close column of the frame, and
    its overlay line ends at the very mean the trend label was decided
    against. *)
Theorem chart_line_ends_at_trend_mean w symbol cost_price res :
  get_stock_analysis w symbol cost_price = Some res ->
  outcome (render_card w symbol res) = Ok tt ->
  exists fig ma20,
    st_plotly_chart (expander EXPANDER) fig ∈ shown (render_card w symbol res) /\
    fig_x fig = Pd.index (res_df res) /\
    Pd.column (res_df res) "Close" = Ok (fig_close fig) /\
    fig_line fig = rolling_mean w 20 (fig_close fig) /\
    Pd.at_position (fig_line fig) (-1) = Ok ma20 /\
    res_trend res =
      (if PrimFloat.ltb ma20 (res_price res) then TREND_STRONG else TREND_WEAK).
Proof.
  intros H Hok.
  destruct (analysis_inv _ _ _ _ H) as
    (df0 & c1 & c2 & c3 & c4 & curr & prev & atr14 & closes & ma20 & A).
  destruct A as (_ & _ & _ & _ & _ & _ & _ & _ & _ & _ & _ & _ & _ & _ &
                 Hcloses & Hma & Htrend & _).
  apply render_card_inv in Hok as
    (value & open & high & low & close & cheap & _ & _ & _ & _ & Hc & _ & Hshown).
  assert (close = closes) as -> by congruence.
  eexists (mkFigure _ _ _ _ _ _), ma20. split.
  { rewrite Hshown, !elem_of_app, !elem_of_cons. auto 10. }
  cbn [fig_x fig_close fig_line]. auto.
Qed.

Lemma chart_line_ends_at_trend_mean_witness :
  exists res fig,
    get_stock_analysis Fixture.scenario1 "2330.TW" (PInt 500) = Some res /\
    st_plotly_chart (expander EXPANDER) fig
      ∈ shown (render_card Fixture.scenario1 "2330.TW" res) /\
    Pd.at_position (fig_line fig) (-1) = Ok 540%float.
Proof.
  destruct (get_stock_analysis Fixture.scenario1 "2330.TW" (PInt 500))
    as [res|] eqn:H; [|vm_compute in H; discriminate].
  assert (Hok : outcome (render_card Fixture.scenario1 "2330.TW" res) = Ok tt)
    by from_run H.
  destruct (chart_line_ends_at_trend_mean _ _ _ _ H Hok)
    as (fig & ma20 & Hin & _ & _ & Hline & Hma & _).
  exists res, fig. split; [reflexivity|]. split; [exact Hin|].
  rewrite Hline. reflexivity.
Defined.

(** ** The loop over the rows *)

Lemma page_bind_Raise {A B} (m : Page A) (f : A -> Page B) e :
  outcome m = Raise e -> m ≫= f = Render (shown m) (Raise e).
Proof. intros H. unfold mbind, Page_bind. rewrite H. reflexivity. Qed.

Lemma page_bind_Ok_inv {A B} (m : Page A) (f : A -> Page B) b :
  outcome (m ≫= f) = Ok b ->
  exists a, outcome m = Ok a /\ outcome (f a) = Ok b /\
            shown (m ≫= f) = (shown m ++ shown (f a))%list.
Proof.
  unfold mbind, Page_bind. destruct (outcome m) as [e|a]; cbn [outcome shown];
    [discriminate|].
  intros H. exists a. auto.
Qed.

(** X8. The loop stops at the first row whose turn faults: the rows after
    it are neither analyzed nor shown, whatever they hold, and the page
    ends with that exception. *)
Theorem page_stops_at_first_fault w t row e :
  outcome (watch_row w t row) = Raise e ->
  forall before after,
    for_each (watch_row w t) (before ++ row :: after) =
    for_each (watch_row w t) (before ++ [row]) /\
    (outcome (for_each (watch_row w t) before) = Ok tt ->
     for_each (watch_row w t) (before ++ row :: after) =
       Render (shown (for_each (watch_row w t) before) ++ shown (watch_row w t row))%list
              (Raise e)).
Proof.
  intros He before after.
  assert (Hrow : forall rest,
            for_each (watch_row w t) (row :: rest) =
            Render (shown (watch_row w t row)) (Raise e)).
  { intros rest. cbn [for_each]. apply page_bind_Raise. exact He. }
  split.
  - rewrite !for_each_app, !Hrow. reflexivity.
  - intros Hok. rewrite for_each_app, Hrow.
    unfold mbind, Page_bind. rewrite Hok. reflexivity.
Qed.

(** A text cost in the second of three rows: the first card is shown, the
    third row is not reached. *)
Lemma page_stops_at_first_fault_witness :
  for_each (watch_row Fixture.scenario1 Fixture.watchlist)
    ([Fixture.row_2330] ++ Cases.row_text_cost :: [Fixture.row_2317]) =
  for_each (watch_row Fixture.scenario1 Fixture.watchlist)
    ([Fixture.row_2330] ++ [Cases.row_text_cost]).
Proof.
  assert (H : outcome (watch_row Fixture.scenario1 Fixture.watchlist
                         Cases.row_text_cost) = Raise TypeError)
    by (vm_compute; reflexivity).
  exact (proj1 (page_stops_at_first_fault _ _ _ _ H
                  [Fixture.row_2330] [Fixture.row_2317])).
Defined.

Lemma cost_basis_filled t row c : cost_basis t row = Some c -> isna c = false.
Proof.
  unfold cost_basis. destruct (has_column t "Cost"); [|discriminate].
  destruct (isna (default (PFloat nan) (row !! "Cost"))) eqn:E; [discriminate|].
  intros [= <-]. exact E.
Qed.

(** X9. The turn of a row faults before the analyzer is called in two
    cases only: the sheet has no Ticker column (KeyError), or the Cost cell
    of the row holds text (TypeError at the comparison with 0).  Nothing
    of the row is shown then. *)
Theorem row_fault_iff w t row e :
  (analyze_row w t row = Raise e <->
     (has_column t "Ticker" = false /\ e = KeyError "Ticker") \/
     (has_column t "Ticker" = true /\
      (exists s, cost_basis t row = Some (PStr s)) /\ e = TypeError)) /\
  (analyze_row w t row = Raise e -> watch_row w t row = Render [] (Raise e)).
Proof.
  split.
  - unfold analyze_row, cell. destruct (has_column t "Ticker").
    + cbn [mbind Exc_bind]. rewrite row_cost_spec. cbn [mbind Exc_bind].
      unfold cost_price_of.
      destruct (cost_basis t row) as [c|] eqn:Hc; cbn [from_option id].
      * pose proof (cost_basis_filled _ _ _ Hc) as Hna.
        destruct c as [|b|n|x|s]; cbn [py_gt_zero mbind Exc_bind];
          try discriminate Hna;
          (split; [intros [= <-]|intros [[? _]|(_ & (s' & Hs) & ->)]];
           try discriminate; try reflexivity).
        right. eauto.
      * cbn [py_gt_zero mbind Exc_bind].
        split; [discriminate|intros [[? _]|(_ & (s' & Hs) & _)]; discriminate].
    + cbn [mbind Exc_bind]. split.
      * intros [= <-]. left. auto.
      * intros [[_ ->]|(? & _)]; [reflexivity|discriminate].
  - intros H. unfold watch_row. rewrite H. reflexivity.
Qed.

Lemma card_headline_length w symbol res :
  outcome (render_card w symbol res) = Ok tt ->
  length (List.filter is_metric (shown (render_card w symbol res))) = 4%nat.
Proof.
  intros Hok. apply render_card_inv in Hok as
    (value & open & high & low & close & cheap & _ & _ & _ & _ & _ & _ & Hshown).
  rewrite Hshown, !List.filter_app. unfold cost_tiles.
  destruct (res_roi res);
    destruct (is_not_None _ && PrimFloat.ltb (res_price res) (res_stop_loss res));
    reflexivity.
Qed.

(** X10. On a loop that runs to its end, the page carries four metric
    tiles for each row the analyzer returned a dictionary for, and none
    for the others. *)
Theorem four_tiles_per_card w t rows :
  outcome (for_each (watch_row w t) rows) = Ok tt ->
  length (List.filter is_metric (shown (for_each (watch_row w t) rows))) =
  (4 * length (List.filter (has_card w t) rows))%nat.
Proof.
  induction rows as [|row rows IH]; [reflexivity|].
  cbn [for_each List.filter]. intros Hok.
  apply page_bind_Ok_inv in Hok as ([] & Hrow & Hrest & ->).
  rewrite List.filter_app, length_app, (IH Hrest).
  unfold has_card. unfold watch_row in Hrow |- *.
  destruct (analyze_row w t row) as [e|[symbol [res|]]].
  - discriminate.
  - change (eval (Ok (symbol, Some res)) ≫= _) with
      (Render (shown (render_card w symbol res)) (outcome (render_card w symbol res)))
      in Hrow |- *.
    cbn [shown outcome] in Hrow |- *.
    rewrite (card_headline_length _ _ _ Hrow). cbn [length]. lia.
  - reflexivity.
Qed.

(** The watchlist of the fixture: three rows, two cards, eight tiles. *)
Lemma four_tiles_per_card_witness :
  length (List.filter is_metric
            (shown (for_each (watch_row Fixture.scenario1 Fixture.watchlist)
                      (sheet_rows Fixture.watchlist)))) = 8%nat.
Proof.
  rewrite (four_tiles_per_card Fixture.scenario1 Fixture.watchlist
             (sheet_rows Fixture.watchlist)); vm_compute; reflexivity.
Defined.

(** ** The loader after a failed read *)

(** X11. A failed read is memoized like a successful one: for 600 seconds
    after it the loader hands back the empty table and replays the error
    box without reading, and the page shows only its title, that box and
    the empty-list warning, even when the sheet can be read again. *)
Theorem failed_read_is_memoized w0 w e now later :
  gsheets_read w0 SHEET_URL = Raise e ->
  later < now + 600 ->
  let memo := (load_data_from_sheets w0 now None).2 in
  (load_data_from_sheets w later memo).1 =
    Render [st_error [Lit "雲端資料讀取失敗，請檢查網址與權限。錯誤: "; Cause e]]
           (Ok (mkSheet ["Ticker"; "Cost"; "Note"] [])) /\
  (page w later (page w0 now None).2).1 =
    Render
      [ st_title "📈 台股 AI 雲端全方位決策系統";
        st_error [Lit "雲端資料讀取失敗，請檢查網址與權限。錯誤: "; Cause e];
        st_warning "目前雲端清單為空，請在 Google Sheets 加入股票代號（例如 2330.TW）。" ]
      (Ok tt).
Proof.
  intros He Hlt. apply Z.ltb_lt in Hlt.
  unfold page, load_data_from_sheets, cache_data, load_data_from_sheets_body.
  rewrite He. cbn [fresh outcome shown mbind Page_bind emit mret Page_ret snd fst
                   stored_at stored replay app].
  rewrite Hlt. split; reflexivity.
Qed.

(** The sheet fails at second 1000 and is back at second 1300. *)
Lemma failed_read_is_memoized_witness :
  sheet_empty
    match outcome (load_data_from_sheets Fixture.scenario1 1300
                     (load_data_from_sheets Cases.sheet_down 1000 None).2).1 with
    | Ok t => t
    | Raise _ => Fixture.watchlist
    end = true.
Proof.
  destruct (failed_read_is_memoized Cases.sheet_down Fixture.scenario1
              (ProviderError "quota exceeded") 1000 1300) as [-> _];
    [reflexivity|lia|reflexivity].
Defined.

(** ** The industry entry *)

Lemma no_keyword_in_empty : ~ names_pb_sector "".
Proof.
  intros H. apply names_pb_sector_spec in H. vm_compute in H. discriminate.
Qed.

(** X12. A symbol with no industry on record is valued by
    Price-to-Earnings: the default is the empty text, which holds no
    keyword. *)
Theorem no_industry_is_price_to_earnings w symbol cost_price res :
  get_stock_analysis w symbol cost_price = Some res ->
  res_info res !! "industry" = None ->
  res_model_type res = "P/E" /\
  py_mul (dict_get (res_info res) "trailingEps" (PInt 0))
         (dict_get (res_info res) "trailingPE" (PInt 15)) = Ok (res_intrinsic res).
Proof.
  intros H Hnone.
  destruct (analysis_inv _ _ _ _ H) as
    (df0 & c1 & c2 & c3 & c4 & curr & prev & atr14 & closes & ma20 & A).
  destruct A as (_ & _ & _ & _ & _ & _ & _ & _ & _ & _ & Hval & _).
  apply valuation_inv in Hval as (industry & Hind & Hcase).
  unfold dict_get in Hind. rewrite Hnone in Hind. cbn [from_option id] in Hind.
  injection Hind as <-.
  destruct Hcase as [(Hpb & _)|(_ & Hmt & Hv)]; [|auto].
  exfalso. exact (no_keyword_in_empty Hpb).
Qed.

Lemma no_industry_is_price_to_earnings_witness :
  exists res,
    get_stock_analysis Cases.index_fund "0050.TW" PNone = Some res /\
    res_model_type res = "P/E" /\ res_intrinsic res = PFloat 24.
Proof.
  destruct (get_stock_analysis Cases.index_fund "0050.TW" PNone) as [res|] eqn:H;
    [|vm_compute in H; discriminate].
  exists res. split; [reflexivity|].
  assert (Hinfo : res_info res = Cases.no_industry).
  { destruct (analysis_inv _ _ _ _ H) as
      (df0 & c1 & c2 & c3 & c4 & curr & prev & atr14 & closes & ma20 & A).
    destruct A as (_ & _ & _ & _ & _ & _ & _ & _ & _ & Hi & _).
    change (Ok Cases.no_industry = Ok (res_info res)) in Hi. congruence. }
  destruct (no_industry_is_price_to_earnings _ _ _ _ H) as [Hmt Hv].
  - rewrite Hinfo. vm_compute. reflexivity.
  - split; [exact Hmt|]. rewrite Hinfo in Hv. vm_compute in Hv.
    injection Hv as Hv. symmetry. exact Hv.
Defined.

(** X13. When the valuation raises, the symbol is unavailable.  It raises
    whenever the industry entry is there and is not text ([None], a
    number), and whenever a factor of the product of the selected model is
    [None]. *)
Theorem valuation_fault_is_unavailable w symbol cost_price info :
  yf_info w symbol = Ok info ->
  ((exists e, valuation info = Raise e) ->
   get_stock_analysis w symbol cost_price = None) /\
  (forall v, info !! "industry" = Some v -> (forall s, v <> PStr s) ->
     valuation info = Raise TypeError) /\
  (forall industry, dict_get info "industry" (PStr "") = PStr industry ->
     (names_pb_sector industry -> info !! "bookValue" = Some PNone) ->
     (~ names_pb_sector industry ->
      info !! "trailingEps" = Some PNone \/ info !! "trailingPE" = Some PNone) ->
     valuation info = Raise TypeError).
Proof.
  intros Hinfo. split; [|split].
  - intros [e He].
    destruct (get_stock_analysis w symbol cost_price) as [res|] eqn:H; [|reflexivity].
    destruct (analysis_inv _ _ _ _ H) as
      (df0 & c1 & c2 & c3 & c4 & curr & prev & atr14 & closes & ma20 & A).
    destruct A as (_ & _ & _ & _ & _ & _ & _ & _ & _ & Hi & Hval & _).
    assert (res_info res = info) as E by congruence.
    rewrite E in Hval. congruence.
  - intros v Hv Hnot. unfold valuation, dict_get. rewrite Hv. cbn [from_option id].
    destruct v; try reflexivity. exfalso. eapply Hnot. reflexivity.
  - intros industry Hind Hpb Hpe.
    destruct (existsb (fun x => str_contains x industry) pb_keywords) eqn:E.
    + assert (Hn : names_pb_sector industry) by (apply names_pb_sector_spec; exact E).
      rewrite (valuation_pb _ _ Hind Hn). unfold dict_get. rewrite (Hpb Hn).
      reflexivity.
    + assert (Hn : ~ names_pb_sector industry).
      { intros Hn. apply names_pb_sector_spec in Hn. congruence. }
      rewrite (valuation_pe _ _ Hind Hn). unfold dict_get.
      destruct (Hpe Hn) as [-> | ->]; [reflexivity|].
      cbn [from_option id]. destruct (default (PInt 0) (info !! "trailingEps"));
        reflexivity.
Qed.

(** An industry entry holding [None]. *)
Lemma valuation_fault_is_unavailable_witness :
  get_stock_analysis Cases.null_industry "2330.TW" PNone = None.
Proof.
  refine (proj1 (valuation_fault_is_unavailable Cases.null_industry "2330.TW" PNone
                   _ eq_refl) _).
  exists TypeError. vm_compute. reflexivity.
Defined.

(** ** The cost basis and the other fields *)

(** X14. The cost basis passed to the analyzer touches the return on cost
    and nothing else: a second call with another cost basis returns the
    same dictionary up to that field, or nothing at all, and then only
    because the return on cost itself cannot be computed. *)
Theorem cost_basis_only_affects_roi w symbol cost_price res cost_price' :
  get_stock_analysis w symbol cost_price = Some res ->
  match get_stock_analysis w symbol cost_price' with
  | Some res' => res' = with_roi res (res_roi res')
  | None =>
      truthy cost_price' = true /\
      exists e, return_on_cost (res_price res) cost_price' = Raise e
  end.
Proof.
  intros H.
  destruct (analysis_inv _ _ _ _ H) as
    (df0 & c1 & c2 & c3 & c4 & curr & prev & atr14 & closes & ma20 & A).
  destruct A as (Hdl & Hne & Hc1 & Hc2 & Hc3 & Hc4 & Hdf & Hcurr & Hprev & Hinfo &
                 Hval & Hclose & Hatr & Hstop & Hcloses & Hma & Htrend & Hk & Hrsi &
                 Hmh & Hroi).
  destruct (get_stock_analysis w symbol cost_price') as [res'|] eqn:H'.
  - destruct (analysis_inv _ _ _ _ H') as
      (df0' & c1' & c2' & c3' & c4' & curr' & prev' & atr14' & closes' & ma20' & A').
    destruct A' as (Hdl' & _ & Hc1' & Hc2' & Hc3' & Hc4' & Hdf' & Hcurr' & _ & Hinfo' &
                    Hval' & Hclose' & Hatr' & Hstop' & Hcloses' & Hma' & Htrend' &
                    Hk' & Hrsi' & Hmh' & _).
    assert (df0' = df0) as -> by congruence.
    assert (c1' = c1) as -> by congruence.
    assert (c2' = c2) as -> by congruence.
    assert (c3' = c3) as -> by congruence.
    assert (c4' = c4) as -> by congruence.
    assert (Edf : res_df res' = res_df res) by congruence.
    rewrite Edf in Hcurr', Hcloses'.
    assert (curr' = curr) as -> by congruence.
    assert (closes' = closes) as -> by congruence.
    assert (ma20' = ma20) as -> by congruence.
    assert (atr14' = atr14) as -> by congruence.
    assert (Einfo : res_info res' = res_info res) by congruence.
    rewrite Einfo in Hval'.
    assert (Eprice : res_price res' = res_price res) by congruence.
    rewrite Eprice in Hstop', Htrend'.
    unfold with_roi. destruct res'; cbn in *. f_equal; congruence.
  - destruct (truthy cost_price') eqn:Ht.
    + split; [reflexivity|].
      destruct (return_on_cost (res_price res) cost_price') as [e|r] eqn:Hr;
        [eauto|].
      exfalso.
      assert (Hgo : get_stock_analysis w symbol cost_price'
                    = Some (with_roi res (Some r))).
      { apply analysis_intro.
        exists df0, c1, c2, c3, c4, curr, prev, atr14, closes, ma20.
        unfold with_roi.
        cbn [res_df res_info res_price res_intrinsic res_model_type res_k res_rsi
             res_macd_h res_stop_loss res_trend res_roi].
        repeat (split; [assumption|]). rewrite Ht. eauto. }
      congruence.
    + exfalso.
      assert (Hgo : get_stock_analysis w symbol cost_price'
                    = Some (with_roi res None)).
      { apply analysis_intro.
        exists df0, c1, c2, c3, c4, curr, prev, atr14, closes, ma20.
        unfold with_roi.
        cbn [res_df res_info res_price res_intrinsic res_model_type res_k res_rsi
             res_macd_h res_stop_loss res_trend res_roi].
        repeat (split; [assumption|]). rewrite Ht. reflexivity. }
      congruence.
Qed.

(** Scenario 1 with the cost basis as text: the return on cost cannot be
    computed and the whole analysis is lost. *)
Lemma cost_basis_only_affects_roi_witness :
  exists res,
    get_stock_analysis Fixture.scenario1 "2330.TW" (PInt 500) = Some res /\
    get_stock_analysis Fixture.scenario1 "2330.TW" (PStr "500") = None /\
    exists e, return_on_cost (res_price res) (PStr "500") = Raise e.
Proof.
  destruct (get_stock_analysis Fixture.scenario1 "2330.TW" (PInt 500))
    as [res|] eqn:H; [|vm_compute in H; discriminate].
  exists res. split; [reflexivity|].
  pose proof (cost_basis_only_affects_roi _ _ _ _ (PStr "500") H) as T.
  destruct (get_stock_analysis Fixture.scenario1 "2330.TW" (PStr "500"))
    as [res'|] eqn:H'; [vm_compute in H'; discriminate|].
  split; [reflexivity|]. exact (proj2 T).
Defined.

(** ** The ATR behind the stop-loss *)

Lemma append_app df cols cols' :
  Pd.append df (cols ++ cols') = Pd.append (Pd.append df cols) cols'.
Proof. unfold Pd.append. apply fold_left_app. Qed.

Lemma columns_append_last df pre k col post :
  k ∉ names post ->
  Pd.columns (Pd.append df (pre ++ (k, col) :: post)) !! k = Some col.
Proof.
  intros Hk. rewrite append_app.
  change (Pd.append (Pd.append df pre) ((k, col) :: post))
    with (Pd.append (Pd.assign (Pd.append df pre) k col) post).
  rewrite (columns_append_other _ _ _ Hk). cbn [Pd.assign Pd.columns].
  apply lookup_insert_eq.
Qed.

(** X15. The stop-loss is computed from the last entry of the ATRr_14
    column the atr call returned (the last such column, if it returned
    several): the value on the latest bar, none of the earlier ones. *)
Theorem stop_loss_uses_latest_atr w symbol cost_price res :
  get_stock_analysis w symbol cost_price = Some res ->
  exists df0 c1 c2 c3 c4,
    yf_download w symbol "1y" "1d" = Ok df0 /\
    ta w (stoch "High" "Low" "Close" 9 3) df0 = Ok c1 /\
    ta w (macd "Close" 12 26 9) (Pd.append df0 c1) = Ok c2 /\
    ta w (rsi "Close" 14) (Pd.append (Pd.append df0 c1) c2) = Ok c3 /\
    ta w (atr "High" "Low" "Close" 14)
       (Pd.append (Pd.append (Pd.append df0 c1) c2) c3) = Ok c4 /\
    forall before col after,
      c4 = (before ++ ("ATRr_14", col) :: after)%list ->
      "ATRr_14" ∉ names after ->
      res_stop_loss res =
        PrimFloat.sub (res_price res)
          (PrimFloat.mul 2 (nth (Pd.len df0 - 1) col nan)).
Proof.
  intros H.
  destruct (analysis_inv _ _ _ _ H) as
    (df0 & c1 & c2 & c3 & c4 & curr & prev & atr14 & closes & ma20 & A).
  destruct A as (Hdl & _ & Hc1 & Hc2 & Hc3 & Hc4 & Hdf & Hcurr & _ & _ & _ &
                 _ & Hatr & Hstop & _).
  exists df0, c1, c2, c3, c4. repeat (split; [assumption|]).
  intros before col after -> Hnot.
  apply getitem_is_Some in Hatr.
  rewrite (iloc_last_lookup _ _ _ Hcurr) in Hatr.
  assert (Hlen : Pd.len (res_df res) = Pd.len df0)
    by (rewrite Hdf, !len_append; reflexivity).
  rewrite Hlen, Hdf, (columns_append_last _ _ _ _ _ Hnot) in Hatr.
  cbn in Hatr. injection Hatr as <-.
  rewrite Hstop, (float_mul_comm 2). reflexivity.
Qed.

(** Scenario 1: the atr call returns the column [nan; 10]. *)
Lemma stop_loss_uses_latest_atr_witness :
  exists res,
    get_stock_analysis Fixture.scenario1 "2330.TW" (PInt 500) = Some res /\
    res_stop_loss res = PrimFloat.sub (res_price res) (PrimFloat.mul 2 10).
Proof.
  destruct (get_stock_analysis Fixture.scenario1 "2330.TW" (PInt 500))
    as [res|] eqn:H; [|vm_compute in H; discriminate].
  exists res. split; [reflexivity|].
  destruct (stop_loss_uses_latest_atr _ _ _ _ H)
    as (df0 & c1 & c2 & c3 & c4 & Hdl & _ & _ & _ & Hc4 & Hstop).
  change (Ok (Fixture.bars 550) = Ok df0) in Hdl. injection Hdl as <-.
  cbv [Fixture.scenario1 Fixture.world ta Fixture.indicators] in Hc4.
  injection Hc4 as <-.
  apply (Hstop [] [nan; 10]%float []); [reflexivity|].
  cbn. apply not_elem_of_nil.
Defined.

(** ** The value behind a faulting tile *)

Lemma py_mul_kinds a b r :
  py_mul a b = Ok r ->
  (exists n, r = PInt n) \/ (exists x, r = PFloat x) \/
  (exists s, r = PStr s /\
     ((exists t, a = PStr t) \/ (exists t, b = PStr t))).
Proof.
  destruct a as [|c|m|x|s], b as [|d|n|y|t]; cbn [py_mul]; try discriminate;
    intros H; try (injection H as <-; eauto 8);
    apply exc_bind_Ok in H as (z & _ & [= <-]); eauto.
Qed.

(** X16. The intrinsic value of a returned dictionary is an int, a float
    or text, never [None] or a bool.  It fails to read as a number, and so
    stops the page at the value tile, only under Price-to-Earnings, when
    trailingEps or trailingPE is text or when their integer product is
    beyond the binary64 range. *)
Theorem value_tile_fault_cause w symbol cost_price res :
  get_stock_analysis w symbol cost_price = Some res ->
  ((exists n, res_intrinsic res = PInt n) \/
   (exists x, res_intrinsic res = PFloat x) \/
   (exists s, res_intrinsic res = PStr s)) /\
  (~ numeric (res_intrinsic res) ->
   res_model_type res = "P/E" /\
   ((exists s, dict_get (res_info res) "trailingEps" (PInt 0) = PStr s) \/
    (exists s, dict_get (res_info res) "trailingPE" (PInt 15) = PStr s) \/
    (exists n, res_intrinsic res = PInt n /\ float_of_int n = Raise OverflowError))).
Proof.
  intros H.
  destruct (analysis_inv _ _ _ _ H) as
    (df0 & c1 & c2 & c3 & c4 & curr & prev & atr14 & closes & ma20 & A).
  destruct A as (_ & _ & _ & _ & _ & _ & _ & _ & _ & _ & Hval & _).
  apply valuation_inv in Hval as (industry & _ & [(_ & Hmt & Hv)|(_ & Hmt & Hv)]).
  - destruct (py_mul_float_right _ _ _ Hv) as [x Hx]. split; [eauto|].
    intros Hn. exfalso. apply Hn. rewrite Hx. exists x. reflexivity.
  - destruct (py_mul_kinds _ _ _ Hv) as [[n Hn]|[[x Hx]|(s & Hs & Hsrc)]].
    + split; [eauto|]. intros Hnum. split; [exact Hmt|]. right. right.
      exists n. split; [exact Hn|].
      rewrite Hn in Hnum. unfold numeric in Hnum. cbn [to_float] in Hnum.
      unfold float_of_int in *.
      destruct (is_infinity _); [reflexivity|]. exfalso. eauto.
    + split; [eauto|]. intros Hnum. exfalso. apply Hnum. rewrite Hx.
      exists x. reflexivity.
    + split; [eauto|]. intros _. split; [exact Hmt|].
      destruct Hsrc as [Ht|Ht]; auto.
Qed.

(** The multiple as text: the value is text under Price-to-Earnings. *)
Lemma value_tile_fault_cause_witness :
  exists res,
    get_stock_analysis Cases.text_multiple "2330.TW" PNone = Some res /\
    res_model_type res = "P/E" /\
    dict_get (res_info res) "trailingPE" (PInt 15) = PStr "Infinity".
Proof.
  destruct (get_stock_analysis Cases.text_multiple "2330.TW" PNone)
    as [res|] eqn:H; [|vm_compute in H; discriminate].
  exists res. split; [reflexivity|].
  assert (Hv : res_intrinsic res = PStr "") by from_run H.
  destruct (proj2 (value_tile_fault_cause _ _ _ _ H)) as [Hmt _].
  - rewrite Hv. intros [x Hx]. discriminate.
  - split; [exact Hmt|]. from_run H.
Defined.

(** ** What the loop hands to the analyzer *)

(** X17. For every row the loop calls the analyzer with the filled Cost
    cell when that cell is above zero, and with [None] in every other
    case: no Cost column, a blank cell, zero, a negative number. *)
Theorem loop_passes_positive_cost_or_none w t row symbol result :
  analyze_row w t row = Ok (symbol, result) ->
  exists cost_price,
    result = get_stock_analysis w symbol cost_price /\
    ((positive_cost_basis t row /\ cost_basis t row = Some cost_price /\
      py_gt_zero cost_price = Ok true) \/
     (~ positive_cost_basis t row /\ cost_price = PNone)).
Proof.
  intros H. apply analyze_row_inv in H as (cost_price & Hcp & Hres).
  exists cost_price. split; [congruence|].
  destruct (cost_price_of_row _ _ _ Hcp) as [(Hpos & Hc & _)|(Hn & ->)].
  - left. split; [exact Hpos|]. split; [exact Hc|].
    destruct Hpos as (c & Hc' & Hgt). congruence.
  - right. auto.
Qed.

(** The third row of the fixture has a blank cost. *)
Lemma loop_passes_positive_cost_or_none_witness :
  exists result,
    analyze_row Fixture.scenario1 Fixture.watchlist Fixture.row_2317
      = Ok ("2317.TW", result) /\
    result = get_stock_analysis Fixture.scenario1 "2317.TW" PNone.
Proof.
  destruct (analyze_row Fixture.scenario1 Fixture.watchlist Fixture.row_2317)
    as [e|[symbol result]] eqn:H; [vm_compute in H; discriminate|].
  assert (symbol = "2317.TW") as ->.
  { assert (E : match analyze_row Fixture.scenario1 Fixture.watchlist Fixture.row_2317
                with Ok (s, _) => s = "2317.TW" | _ => True end)
      by (vm_compute; reflexivity).
    rewrite H in E. exact E. }
  exists result. split; [reflexivity|].
  destruct (loop_passes_positive_cost_or_none _ _ _ _ _ H)
    as (cp & -> & [(Hpos & _)|(_ & ->)]); [|reflexivity].
  exfalso. destruct Hpos as (c & Hc & _). vm_compute in Hc. discriminate.
Defined.
